(** * DeepFilterNet3Processor: asset cache and processor lifecycle

    A shallow embedding of [src/DeepFilterNet3Processor.ts].

    - JavaScript numbers are modelled by their exact value (module [Js]);
    - the two static fields of the class and the promises they point to
      form the [World]; [preload] is a state-passing function on it;
    - an instance is the record [Processor]; its methods are functions on
      that record which also return the effects they had on the audio
      worklet node (messages posted, disconnection);
    - an [async] method is split at its [await]: a [_start] part that runs
      when the method is called and a [_resume] part that runs when the
      awaited promise settles. *)

From Stdlib Require Import ZArith QArith Qround String List Bool Lia.
From stdpp Require Import base option gmap.
Import ListNotations.

Local Open Scope string_scope.

(** ** JavaScript values *)

Module Js.

(** A [number] is an IEEE-754 double.  Every finite double is a rational,
    and the operations the processor applies to a level ([Math.floor],
    [Math.min], [Math.max], comparisons with 0 and 100) are exact on
    doubles, so a finite double is represented by its value.  The two
    zeros are not told apart: [Math.max(0, -0)] is [+0], so the sign of
    a zero never reaches a message. *)
Inductive number : Type :=
| NaN
| PosInfinity
| NegInfinity
| Finite (q : Q).

Definition of_Z (z : Z) : number := Finite (inject_Z z).

(** What a caller can pass where TypeScript says [number]: the check
    [typeof level !== 'number'] is made at run time. *)
Inductive value : Type :=
| VUndefined
| VNull
| VBoolean (b : bool)
| VString (s : string)
| VNumber (x : number)
| VObject.

Definition typeof (v : value) : string :=
  match v with
  | VUndefined => "undefined"
  | VNull => "object"
  | VBoolean _ => "boolean"
  | VString _ => "string"
  | VNumber _ => "number"
  | VObject => "object"
  end.

Definition isNaN (x : number) : bool :=
  match x with NaN => true | _ => false end.

Definition isFinite (x : number) : bool :=
  match x with Finite _ => true | _ => false end.

Definition Math_floor (x : number) : number :=
  match x with
  | Finite q => Finite (inject_Z (Qfloor q))
  | _ => x
  end.

Definition Math_min (a b : number) : number :=
  match a, b with
  | NaN, _ | _, NaN => NaN
  | NegInfinity, _ | _, NegInfinity => NegInfinity
  | PosInfinity, _ => b
  | _, PosInfinity => a
  | Finite p, Finite q => if Qle_bool p q then a else b
  end.

Definition Math_max (a b : number) : number :=
  match a, b with
  | NaN, _ | _, NaN => NaN
  | PosInfinity, _ | _, PosInfinity => PosInfinity
  | NegInfinity, _ => b
  | _, NegInfinity => a
  | Finite p, Finite q => if Qle_bool q p then a else b
  end.

(** The nullish coalescing operator: [a ?? b]. *)
Definition nullish {A : Type} (a : option A) (b : A) : A :=
  match a with Some x => x | None => b end.

(** An error object: its constructor name and its message. *)
Record error : Type := { errName : string; errMessage : string }.

Definition Error (msg : string) : error :=
  {| errName := "Error"; errMessage := msg |}.
Definition TypeError (msg : string) : error :=
  {| errName := "TypeError"; errMessage := msg |}.

(** How a promise (or an awaited call) ends. *)
Inductive settled (A : Type) : Type :=
| Fulfilled (a : A)
| Rejected (e : error).
Arguments Fulfilled {A} a.
Arguments Rejected {A} e.

End Js.
Import Js.

Notation "a ?? b" := (nullish a b) (at level 45, left associativity).

(** ** Data model *)

Definition ArrayBuffer : Type := list Byte.byte.

(** A compiled [WebAssembly.Module]: an opaque handle. *)
Record WasmModule : Type := { moduleHandle : nat }.

(** An [AudioContext]: an opaque handle. *)
Record AudioContext : Type := { contextHandle : nat }.

(** Promises are told apart by the order in which they were created. *)
Abbreviation PromiseId := nat.

(** Modelled from the spec: [AssetConfig] is declared in
    [asset-loader/AssetLoader], which is missing; the spec describes it as an
    "optional override of base location and fetch options".  The processor
    reads [cdnUrl] only. *)
Record AssetConfig : Type := {
  cdnUrl : option string;
  fetchOptions : list (string * string)
}.

(** [DeepFilterNet3ProcessorConfig]: every field is optional. *)
Record DeepFilterNet3ProcessorConfig : Type := {
  sampleRate : option number;
  noiseReductionLevel : option number;
  assetConfig : option AssetConfig
}.

(** The literal [{}]. *)
Definition emptyConfig : DeepFilterNet3ProcessorConfig :=
  {| sampleRate := None; noiseReductionLevel := None; assetConfig := None |}.

(** [ProcessorAssets]: the object literal [{ wasmModule, modelBytes }] built
    by one acquisition.  [objectId] is the identity of that object: the
    promise whose body created it. *)
Record ProcessorAssets : Type := {
  objectId : PromiseId;
  wasmModule : WasmModule;
  modelBytes : ArrayBuffer
}.

(** Modelled from the spec: [getAssetLoader] lives in the missing
    [asset-loader/AssetLoader]; a loader is determined by the asset
    configuration it was asked for. *)
Record AssetLoader : Type := { loaderConfig : option AssetConfig }.

Definition getAssetLoader (c : option AssetConfig) : AssetLoader :=
  {| loaderConfig := c |}.

Record AssetUrls : Type := { wasm : string; model : string }.

Record ProcessorOptions : Type := {
  optWasmModule : WasmModule;
  optModelBytes : ArrayBuffer;
  suppressionLevel : option number
}.

Record AudioWorkletNode : Type := {
  nodeContext : AudioContext;
  nodeName : string;
  processorOptions : ProcessorOptions
}.

(** Messages posted on the node's port; the tags are the members of
    [WorkletMessageTypes]. *)
Inductive WorkletMessage : Type :=
| SET_SUPPRESSION_LEVEL (value : number)
| SET_BYPASS (value : bool).

(** What a method does to the audio engine. *)
Inductive Effect : Type :=
| PostMessage (node : AudioWorkletNode) (msg : WorkletMessage)
| Disconnect (node : AudioWorkletNode).

(** The instance fields of the class. *)
Record Processor : Type := {
  assetLoader : AssetLoader;
  assets : option ProcessorAssets;
  workletNode : option AudioWorkletNode;
  isInitialized : bool;
  bypassEnabled : bool;
  config : DeepFilterNet3ProcessorConfig
}.

Definition set_assets (a : option ProcessorAssets) (p : Processor) : Processor :=
  {| assetLoader := assetLoader p; assets := a; workletNode := workletNode p;
     isInitialized := isInitialized p; bypassEnabled := bypassEnabled p;
     config := config p |}.

Definition set_workletNode (n : option AudioWorkletNode) (p : Processor) : Processor :=
  {| assetLoader := assetLoader p; assets := assets p; workletNode := n;
     isInitialized := isInitialized p; bypassEnabled := bypassEnabled p;
     config := config p |}.

Definition set_isInitialized (b : bool) (p : Processor) : Processor :=
  {| assetLoader := assetLoader p; assets := assets p; workletNode := workletNode p;
     isInitialized := b; bypassEnabled := bypassEnabled p;
     config := config p |}.

Definition set_bypassEnabled (b : bool) (p : Processor) : Processor :=
  {| assetLoader := assetLoader p; assets := assets p; workletNode := workletNode p;
     isInitialized := isInitialized p; bypassEnabled := b;
     config := config p |}.

(** ** Instance methods *)

(** [private constructor(config = {})] *)
Definition constructor (cfg : DeepFilterNet3ProcessorConfig) : Processor :=
  {| assetLoader := getAssetLoader (assetConfig cfg);
     assets := None;
     workletNode := None;
     isInitialized := false;
     bypassEnabled := false;
     config := {| sampleRate := Some (sampleRate cfg ?? of_Z 48000);
                  noiseReductionLevel := Some (noiseReductionLevel cfg ?? of_Z 50);
                  assetConfig := assetConfig cfg |} |}.

Definition NOT_INITIALIZED : string :=
  "Processor not initialized. Use DeepFilterNet3Processor.create() to instantiate.".

(** [private ensureInitialized()] *)
Definition ensureInitialized (this : Processor) : settled unit :=
  if negb (isInitialized this) then Rejected (Error NOT_INITIALIZED)
  else Fulfilled tt.

(** [createAudioWorkletNode], up to its [await]: [Rejected e] when it throws
    before suspending, [Fulfilled tt] when it is suspended on
    [createWorkletModule]. *)
Definition createAudioWorkletNode_start (this : Processor) : settled unit :=
  match ensureInitialized this with
  | Rejected e => Rejected e
  | Fulfilled _ =>
      match assets this with
      | None => Rejected (Error "Assets not loaded")
      | Some _ => Fulfilled tt
      end
  end.

(** [createAudioWorkletNode], from its [await] on: [loaded] is how
    [createWorkletModule] ended, [this] is the instance as it is at that
    moment.  [this.assets] is read again here; reading a property of [null]
    throws a [TypeError]. *)
Definition createAudioWorkletNode_resume (ctx : AudioContext)
    (loaded : settled unit) (this : Processor)
  : Processor * settled AudioWorkletNode :=
  match loaded with
  | Rejected e => (this, Rejected e)
  | Fulfilled _ =>
      match assets this with
      | None =>
          (this, Rejected (TypeError "Cannot read properties of null (reading 'wasmModule')"))
      | Some a =>
          let node :=
            {| nodeContext := ctx;
               nodeName := "deepfilter-audio-processor";
               processorOptions :=
                 {| optWasmModule := wasmModule a;
                    optModelBytes := modelBytes a;
                    suppressionLevel := noiseReductionLevel (config this) |} |} in
          (set_workletNode (Some node) this, Fulfilled node)
      end
  end.

(** The whole call when nothing else touches the instance while it is
    suspended. *)
Definition createAudioWorkletNode (ctx : AudioContext) (loaded : settled unit)
    (this : Processor) : Processor * settled AudioWorkletNode :=
  match createAudioWorkletNode_start this with
  | Rejected e => (this, Rejected e)
  | Fulfilled _ => createAudioWorkletNode_resume ctx loaded this
  end.

(** [setSuppressionLevel(level)] *)
Definition setSuppressionLevel (level : value) (this : Processor)
  : Processor * list Effect :=
  match workletNode this with
  | None => (this, [])
  | Some node =>
      if negb (String.eqb (typeof level) "number") then (this, [])
      else
        match level with
        | VNumber x =>
            if isNaN x then (this, [])
            else
              let clampedLevel := Math_max (of_Z 0) (Math_min (of_Z 100) (Math_floor x)) in
              (this, [PostMessage node (SET_SUPPRESSION_LEVEL clampedLevel)])
        | _ => (this, [])
        end
  end.

(** [destroy()] *)
Definition destroy (this : Processor) : Processor * list Effect :=
  if negb (isInitialized this) then (this, [])
  else
    let '(this1, effs) :=
      match workletNode this with
      | Some node => (set_workletNode None this, [Disconnect node])
      | None => (this, [])
      end in
    (set_isInitialized false (set_assets None this1), effs).

(** [x !== null] *)
Definition not_null {A : Type} (x : option A) : bool :=
  match x with Some _ => true | None => false end.

(** [isReady()] *)
Definition isReady (this : Processor) : bool :=
  isInitialized this && not_null (workletNode this).

(** [setNoiseSuppressionEnabled(enabled)] *)
Definition setNoiseSuppressionEnabled (enabled : bool) (this : Processor)
  : Processor * list Effect :=
  match workletNode this with
  | None => (this, [])
  | Some node =>
      (set_bypassEnabled (negb enabled) this,
       [PostMessage node (SET_BYPASS (negb enabled))])
  end.

(** [isNoiseSuppressionEnabled()] *)
Definition isNoiseSuppressionEnabled (this : Processor) : bool :=
  negb (bypassEnabled this).

(** ** The asset cache: the static fields and the promises *)

Inductive PromiseState : Type :=
| Pending
| Settled (s : settled ProcessorAssets).

(** One call of [loader.fetchAsset(url)]. *)
Record FetchCall : Type := { via : AssetLoader; url : string }.

(** The static fields [preloadPromise] and [preloadConfig], the promises
    created so far by [preload], and the calls made to [fetchAsset]. *)
Record World : Type := {
  preloadPromise : option PromiseId;
  preloadConfig : option AssetConfig;
  promises : gmap PromiseId PromiseState;
  nextPromise : PromiseId;
  fetchLog : list FetchCall
}.

(** The state of a freshly loaded module. *)
Definition initialWorld : World :=
  {| preloadPromise := None; preloadConfig := None;
     promises := ∅; nextPromise := 0; fetchLog := [] |}.

Definition DEFAULT_CDN_URL : string :=
  "https://cdn.mezon.ai/AI/models/datas/noise_suppression/deepfilternet3".

(** [config?.assetConfig] *)
Definition targetAssetConfigOf (cfg : option DeepFilterNet3ProcessorConfig)
  : option AssetConfig :=
  match cfg with Some c => assetConfig c | None => None end.

(** [assetConfig?.cdnUrl ?? '<default>']: the effective base location. *)
Definition cdnUrlOf (ac : option AssetConfig) : string :=
  match ac with Some a => cdnUrl a | None => None end ?? DEFAULT_CDN_URL.

Definition effectiveLocation (cfg : option DeepFilterNet3ProcessorConfig) : string :=
  cdnUrlOf (targetAssetConfigOf cfg).

(** What the environment delivers to one acquisition: the outcome of the two
    fetches, which of them settles first, and what [WebAssembly.compile]
    makes of the bytes. *)
Record Completion : Type := {
  wasmFetch : settled ArrayBuffer;
  modelFetch : settled ArrayBuffer;
  modelSettlesFirst : bool;
  compile : ArrayBuffer -> settled WasmModule
}.

(** [Promise.all([a, b])]: rejects with the first rejection. *)
Definition Promise_all (c : Completion) : settled (ArrayBuffer * ArrayBuffer) :=
  match wasmFetch c, modelFetch c with
  | Fulfilled w, Fulfilled m => Fulfilled (w, m)
  | Rejected e, Fulfilled _ => Rejected e
  | Fulfilled _, Rejected e => Rejected e
  | Rejected e1, Rejected e2 => Rejected (if modelSettlesFirst c then e2 else e1)
  end.

(** The body of the async arrow function in [preload], run for promise [id]. *)
Definition acquisition (id : PromiseId) (c : Completion) : settled ProcessorAssets :=
  match Promise_all c with
  | Rejected e => Rejected e
  | Fulfilled (wasmBytes, modelBytes) =>
      match compile c wasmBytes with
      | Rejected e => Rejected e
      | Fulfilled wasmModule =>
          Fulfilled {| objectId := id; wasmModule := wasmModule; modelBytes := modelBytes |}
      end
  end.

(** The acquisition of promise [p] completes.  A promise settles once. *)
Definition settle (p : PromiseId) (c : Completion) (w : World) : World :=
  match promises w !! p with
  | Some Pending =>
      {| preloadPromise := preloadPromise w; preloadConfig := preloadConfig w;
         promises := <[p := Settled (acquisition p c)]> (promises w);
         nextPromise := nextPromise w; fetchLog := fetchLog w |}
  | _ => w
  end.

(** What [await p] yields, once [p] has settled. *)
Definition await (p : PromiseId) (w : World) : option (settled ProcessorAssets) :=
  match promises w !! p with
  | Some (Settled s) => Some s
  | _ => None
  end.

Section Cache.

(** [loader.getAssetUrls()] is in the missing [asset-loader/AssetLoader]. *)
Variable getAssetUrls : AssetLoader -> AssetUrls.

(** The two fetches one acquisition issues. *)
Definition fetchesOf (ac : option AssetConfig) : list FetchCall :=
  [ {| via := getAssetLoader ac; url := wasm (getAssetUrls (getAssetLoader ac)) |};
    {| via := getAssetLoader ac; url := model (getAssetUrls (getAssetLoader ac)) |} ].

(** The miss branch of [preload]: record the configuration, create the
    promise; its body runs up to the first [await], which issues the two
    fetches. *)
Definition startAcquisition (targetAssetConfig : option AssetConfig) (w : World)
  : PromiseId * World :=
  let loader := getAssetLoader targetAssetConfig in
  let assetUrls := getAssetUrls loader in
  let id := nextPromise w in
  (id,
   {| preloadPromise := Some id;
      preloadConfig := targetAssetConfig;
      promises := <[id := Pending]> (promises w);
      nextPromise := S id;
      fetchLog := fetchLog w ++ [ {| via := loader; url := wasm assetUrls |};
                                  {| via := loader; url := model assetUrls |} ] |}).

(** [static preload(config?)] *)
Definition preload (cfg : option DeepFilterNet3ProcessorConfig) (w : World)
  : PromiseId * World :=
  let targetAssetConfig := targetAssetConfigOf cfg in
  let currentCdnUrl := cdnUrlOf targetAssetConfig in
  let cachedCdnUrl := cdnUrlOf (preloadConfig w) in
  match preloadPromise w with
  | Some p =>
      if String.eqb currentCdnUrl cachedCdnUrl then (p, w)
      else startAcquisition targetAssetConfig w
  | None => startAcquisition targetAssetConfig w
  end.

(** [private async initialize()], up to its [await]: [None] when it
    returns at once, [Some p] when it is suspended on promise [p]. *)
Definition initialize_start (this : Processor) (w : World)
  : option PromiseId * World :=
  if isInitialized this then (None, w)
  else
    let '(p, w') := preload (Some (config this)) w in
    (Some p, w').

(** [initialize], from its [await] on: the instance afterwards, and how
    the call ends. *)
Definition initialize_resume (s : settled ProcessorAssets) (this : Processor)
  : Processor * settled unit :=
  match s with
  | Fulfilled a => (set_isInitialized true (set_assets (Some a) this), Fulfilled tt)
  | Rejected e => (this, Rejected e)
  end.

(** [static async create(config = {})], up to its [await]: the instance
    under construction, the promise it waits for, the world. *)
Definition create_start (cfg : option DeepFilterNet3ProcessorConfig) (w : World)
  : Processor * option PromiseId * World :=
  let processor := constructor (cfg ?? emptyConfig) in
  let '(p, w') := initialize_start processor w in
  (processor, p, w').

(** [create], from its [await] on: what the returned promise settles to. *)
Definition create_resume (s : settled ProcessorAssets) (processor : Processor)
  : settled Processor :=
  match initialize_resume s processor with
  | (processor', Fulfilled _) => Fulfilled processor'
  | (_, Rejected e) => Rejected e
  end.

(** *** Traces of the cache *)

Inductive Event : Type :=
| EvPreload (cfg : option DeepFilterNet3ProcessorConfig)
| EvCreate (cfg : option DeepFilterNet3ProcessorConfig)
| EvSettle (p : PromiseId) (c : Completion).

(** The promise a request observes, and the world after the event. *)
Definition step (ev : Event) (w : World) : option PromiseId * World :=
  match ev with
  | EvPreload cfg => let '(p, w') := preload cfg w in (Some p, w')
  | EvCreate cfg => let '(_, p, w') := create_start cfg w in (p, w')
  | EvSettle p c => (None, settle p c w)
  end.

Fixpoint run (evs : list Event) (w : World) : list PromiseId * World :=
  match evs with
  | [] => ([], w)
  | ev :: evs' =>
      let '(o, w1) := step ev w in
      let '(ps, w2) := run evs' w1 in
      (match o with Some p => p :: ps | None => ps end, w2)
  end.

(** The configuration a request passes to [preload]: [create] passes the
    configuration of the instance it has constructed. *)
Definition preloadArg (ev : Event) : option (option DeepFilterNet3ProcessorConfig) :=
  match ev with
  | EvPreload cfg => Some cfg
  | EvCreate cfg => Some (Some (config (constructor (cfg ?? emptyConfig))))
  | EvSettle _ _ => None
  end.

(** The effective base location a request is for. *)
Definition requestLocation (ev : Event) : option string :=
  match preloadArg ev with
  | Some cfg => Some (effectiveLocation cfg)
  | None => None
  end.

Definition isRequest (ev : Event) : bool := not_null (preloadArg ev).

End Cache.

(** The cache is well formed: promise identifiers are handed out in order,
    and the stored promise is one of them. *)
Definition wf (w : World) : Prop :=
  (forall p, is_Some (promises w !! p) <-> p < nextPromise w) /\
  (forall p, preloadPromise w = Some p -> p < nextPromise w).

(** The cache holds the entry of base location [L]. *)
Definition cacheHolds (L : string) (w : World) : Prop :=
  is_Some (preloadPromise w) /\ cdnUrlOf (preloadConfig w) = L.

(** Every request of the trace is for base location [L]. *)
Definition requestsFor (L : string) (evs : list Event) : Prop :=
  Forall (fun ev => forall l, requestLocation ev = Some l -> l = L) evs.

(** ** The life of one instance *)

(** What can happen to an instance once the constructor has run: the
    promise awaited by [initialize] settles (inside [create]), a public
    method is called, or a suspended [createAudioWorkletNode] resumes. *)
Inductive Call : Type :=
| CreateAudioWorkletNode (ctx : AudioContext)
| ModuleLoaded (ctx : AudioContext) (loaded : settled unit)
| SetSuppressionLevel (level : value)
| SetNoiseSuppressionEnabled (enabled : bool)
| Destroy.

Record Client : Type := {
  this : Processor;
  suspended : list AudioContext;
  trace : list Effect
}.

Fixpoint takeContext (ctx : AudioContext) (l : list AudioContext)
  : option (list AudioContext) :=
  match l with
  | [] => None
  | c :: l' =>
      if Nat.eqb (contextHandle c) (contextHandle ctx) then Some l'
      else match takeContext ctx l' with
           | Some r => Some (c :: r)
           | None => None
           end
  end.

Definition invoke (call : Call) (c : Client) : Client :=
  match call with
  | CreateAudioWorkletNode ctx =>
      match createAudioWorkletNode_start (this c) with
      | Rejected _ => c
      | Fulfilled _ =>
          {| this := this c; suspended := ctx :: suspended c; trace := trace c |}
      end
  | ModuleLoaded ctx loaded =>
      match takeContext ctx (suspended c) with
      | None => c
      | Some rest =>
          {| this := fst (createAudioWorkletNode_resume ctx loaded (this c));
             suspended := rest; trace := trace c |}
      end
  | SetSuppressionLevel level =>
      let '(p, effs) := setSuppressionLevel level (this c) in
      {| this := p; suspended := suspended c; trace := trace c ++ effs |}
  | SetNoiseSuppressionEnabled enabled =>
      let '(p, effs) := setNoiseSuppressionEnabled enabled (this c) in
      {| this := p; suspended := suspended c; trace := trace c ++ effs |}
  | Destroy =>
      let '(p, effs) := destroy (this c) in
      {| this := p; suspended := suspended c; trace := trace c ++ effs |}
  end.

Definition invokeAll (calls : list Call) (c : Client) : Client :=
  fold_left (fun c call => invoke call c) calls c.

(** The instance [create] works on, after the promise awaited by
    [initialize] has settled to [s]; when [s] is a rejection this is the
    never-initialized instance that [create] drops. *)
Definition born (cfg : DeepFilterNet3ProcessorConfig) (s : settled ProcessorAssets)
  : Client :=
  {| this := fst (initialize_resume s (constructor cfg));
     suspended := []; trace := [] |}.

(** The instance after any sequence of calls. *)
Definition instanceAfter (cfg : DeepFilterNet3ProcessorConfig)
    (s : settled ProcessorAssets) (calls : list Call) : Processor :=
  this (invokeAll calls (born cfg s)).

(** What holds of an instance whatever is called on it: assets are held
    exactly while it is initialized, a node exists only while it is
    initialized, and the loader and the configuration are the ones the
    constructor made. *)
Definition instanceInv (cfg : DeepFilterNet3ProcessorConfig) (p : Processor) : Prop :=
  not_null (assets p) = isInitialized p /\
  (isInitialized p = false -> workletNode p = None) /\
  config p = config (constructor cfg) /\
  assetLoader p = assetLoader (constructor cfg).

(** ** Concrete data for the examples *)

Definition exampleAssetUrls (l : AssetLoader) : AssetUrls :=
  {| wasm := cdnUrlOf (loaderConfig l) ++ "/df_bg.wasm";
     model := cdnUrlOf (loaderConfig l) ++ "/model.tar.gz" |}.

Definition configAt (base : string) : option DeepFilterNet3ProcessorConfig :=
  Some {| sampleRate := None; noiseReductionLevel := None;
          assetConfig := Some {| cdnUrl := Some base; fetchOptions := [] |} |}.

Definition configA : option DeepFilterNet3ProcessorConfig := configAt "https://a.example/dfn3".
Definition configB : option DeepFilterNet3ProcessorConfig := configAt "https://b.example/dfn3".

Definition exampleAssets : ProcessorAssets :=
  {| objectId := 0; wasmModule := {| moduleHandle := 7 |}; modelBytes := [] |}.

Definition completionOk : Completion :=
  {| wasmFetch := Fulfilled []; modelFetch := Fulfilled [];
     modelSettlesFirst := false;
     compile := fun _ => Fulfilled {| moduleHandle := 7 |} |}.

Definition completionFailed : Completion :=
  {| wasmFetch := Rejected (Error "Failed to fetch"); modelFetch := Fulfilled [];
     modelSettlesFirst := false;
     compile := fun _ => Fulfilled {| moduleHandle := 7 |} |}.

Definition exampleContext : AudioContext := {| contextHandle := 1 |}.

Definition exampleNode : AudioWorkletNode :=
  {| nodeContext := exampleContext;
     nodeName := "deepfilter-audio-processor";
     processorOptions :=
       {| optWasmModule := {| moduleHandle := 7 |}; optModelBytes := [];
          suppressionLevel := Some (of_Z 50) |} |}.

(** An instance that [create] has returned and on which
    [createAudioWorkletNode] has succeeded. *)
Definition exampleReady : Processor :=
  fst (createAudioWorkletNode exampleContext (Fulfilled tt)
         (fst (initialize_resume (Fulfilled exampleAssets) (constructor emptyConfig)))).

(** Three requests for the default location, the first acquisition
    completing in between. *)
Definition exampleRequests : list Event :=
  [EvPreload None; EvCreate (Some emptyConfig); EvSettle 0 completionOk; EvCreate None].

(** The cache after the acquisition for location A has failed. *)
Definition worldAfterFailure : World :=
  snd (run exampleAssetUrls [EvPreload configA; EvSettle 0 completionFailed] initialWorld).

(** The double nearest to 50.9. *)
Definition double_50_9 : Q := 7163538157286195 # 140737488355328.

(** ** Vocabulary for the properties of traces *)

(** The two operations of the control surface. *)
Definition isControl (call : Call) : bool :=
  match call with
  | SetSuppressionLevel _ | SetNoiseSuppressionEnabled _ => true
  | _ => false
  end.

(** The argument of the last [setNoiseSuppressionEnabled] among [calls], or
    [current] when there is none. *)
Fixpoint lastEnabled (calls : list Call) (current : bool) : bool :=
  match calls with
  | [] => current
  | SetNoiseSuppressionEnabled enabled :: rest => lastEnabled rest enabled
  | _ :: rest => lastEnabled rest current
  end.

(** The event is the completion of promise [p]. *)
Definition settles (p : PromiseId) (ev : Event) : bool :=
  match ev with
  | EvSettle q _ => Nat.eqb q p
  | _ => false
  end.

(** A caller that holds instance [p] and has nothing in flight. *)
Definition clientOf (p : Processor) : Client :=
  {| this := p; suspended := []; trace := [] |}.

(** The instance is as [destroy] leaves it. *)
Definition torn (p : Processor) : Prop :=
  isInitialized p = false /\ assets p = None /\ workletNode p = None.

(** A configuration that names the default location explicitly and brings
    fetch options of its own. *)
Definition configDefaultExplicit : option DeepFilterNet3ProcessorConfig :=
  Some {| sampleRate := None; noiseReductionLevel := None;
          assetConfig := Some {| cdnUrl := Some DEFAULT_CDN_URL;
                                 fetchOptions := [("cache", "no-store")] |} |}.

(** * Properties *)

(** ** Numbers *)

Lemma Qle_bool_inject_Z (a b : Z) : Qle_bool (inject_Z a) (inject_Z b) = (a <=? b)%Z.
Proof. unfold Qle_bool, inject_Z; simpl. now rewrite !Z.mul_1_r. Qed.

Lemma clamp_of_Z (z : Z) :
  Math_max (of_Z 0) (Math_min (of_Z 100) (of_Z z)) = of_Z (Z.max 0 (Z.min 100 z)).
Proof.
  unfold Math_min, Math_max, of_Z.
  rewrite Qle_bool_inject_Z.
  destruct (Z.leb_spec 100 z) as [Hle | Hlt].
  - rewrite Qle_bool_inject_Z.
    replace (Z.max 0 (Z.min 100 z)) with 100%Z by lia.
    reflexivity.
  - rewrite Qle_bool_inject_Z.
    destruct (Z.leb_spec z 0) as [Hneg | Hpos].
    + replace (Z.max 0 (Z.min 100 z)) with 0%Z by lia. reflexivity.
    + replace (Z.max 0 (Z.min 100 z)) with z by lia. reflexivity.
Qed.

Lemma clamp_range (z : Z) : (0 <= Z.max 0 (Z.min 100 z) <= 100)%Z.
Proof. lia. Qed.

(** ** The control surface *)

Lemma setSuppressionLevel_finite (q : Q) (node : AudioWorkletNode) (p : Processor) :
  workletNode p = Some node ->
  setSuppressionLevel (VNumber (Finite q)) p =
    (p, [PostMessage node
           (SET_SUPPRESSION_LEVEL (of_Z (Z.max 0 (Z.min 100 (Qfloor q)))))]).
Proof.
  intros Hnode. unfold setSuppressionLevel. rewrite Hnode.
  rewrite <- clamp_of_Z. reflexivity.
Qed.

Lemma setSuppressionLevel_same_instance (level : value) (p : Processor) :
  fst (setSuppressionLevel level p) = p.
Proof.
  unfold setSuppressionLevel.
  destruct (workletNode p); [| reflexivity].
  destruct level as [| | | |x|]; simpl; try reflexivity.
  now destruct (isNaN x).
Qed.

(** C6: with an execution handle, a finite level makes [setSuppressionLevel]
    post exactly one message, whose value is the floor of the level clamped
    into the integers 0..100; -5 gives 0, 250 gives 100 and 50.9 gives 50. *)
Theorem setSuppressionLevel_clamps (p : Processor) (node : AudioWorkletNode) :
  workletNode p = Some node ->
  (forall q : Q,
      exists k : Z,
        (0 <= k <= 100)%Z /\
        k = Z.max 0 (Z.min 100 (Qfloor q)) /\
        setSuppressionLevel (VNumber (Finite q)) p =
          (p, [PostMessage node (SET_SUPPRESSION_LEVEL (of_Z k))])) /\
  setSuppressionLevel (VNumber (Finite (-5 # 1))) p =
    (p, [PostMessage node (SET_SUPPRESSION_LEVEL (of_Z 0))]) /\
  setSuppressionLevel (VNumber (Finite (250 # 1))) p =
    (p, [PostMessage node (SET_SUPPRESSION_LEVEL (of_Z 100))]) /\
  setSuppressionLevel (VNumber (Finite double_50_9)) p =
    (p, [PostMessage node (SET_SUPPRESSION_LEVEL (of_Z 50))]).
Proof.
  intros Hnode. repeat split.
  - intros q. exists (Z.max 0 (Z.min 100 (Qfloor q))).
    split; [apply clamp_range | split; [reflexivity |]].
    now apply setSuppressionLevel_finite.
  - now rewrite (setSuppressionLevel_finite _ node).
  - now rewrite (setSuppressionLevel_finite _ node).
  - now rewrite (setSuppressionLevel_finite _ node).
Qed.

Lemma setSuppressionLevel_clamps_witness :
  workletNode exampleReady = Some exampleNode /\
  setSuppressionLevel (VNumber (Finite double_50_9)) exampleReady =
    (exampleReady, [PostMessage exampleNode (SET_SUPPRESSION_LEVEL (of_Z 50))]).
Proof.
  split; [reflexivity |].
  apply (setSuppressionLevel_clamps exampleReady exampleNode). reflexivity.
Defined.

(** C7, as the code has it: [setSuppressionLevel] changes nothing and posts
    nothing when there is no execution handle, when the level is not of type
    number, or when it is NaN; it is total, so it never throws.  The two
    infinities are not ignored: with a handle they are sent as 100 and 0. *)
Theorem setSuppressionLevel_ignores (level : value) (p : Processor) :
  (workletNode p = None \/ typeof level <> "number" \/ level = VNumber NaN ->
   setSuppressionLevel level p = (p, [])) /\
  fst (setSuppressionLevel level p) = p /\
  (forall node, workletNode p = Some node ->
     setSuppressionLevel (VNumber PosInfinity) p =
       (p, [PostMessage node (SET_SUPPRESSION_LEVEL (of_Z 100))]) /\
     setSuppressionLevel (VNumber NegInfinity) p =
       (p, [PostMessage node (SET_SUPPRESSION_LEVEL (of_Z 0))])).
Proof.
  unfold setSuppressionLevel. repeat split.
  - intros [Hnone | [Htype | Hnan]].
    + now rewrite Hnone.
    + destruct (workletNode p); [| reflexivity].
      destruct level; simpl in *; try reflexivity. now contradict Htype.
    + subst level. now destruct (workletNode p).
  - apply setSuppressionLevel_same_instance.
  - now rewrite H.
  - now rewrite H.
Qed.

Lemma setSuppressionLevel_ignores_witness :
  setSuppressionLevel (VNumber NaN) exampleReady = (exampleReady, []).
Proof.
  apply (setSuppressionLevel_ignores (VNumber NaN) exampleReady).
  right; right; reflexivity.
Defined.

(** C7 as stated fails: +Infinity is not a finite number, yet with a handle
    a message (value 100) is posted. *)
Lemma setSuppressionLevel_infinity_is_sent :
  isFinite PosInfinity = false /\
  workletNode exampleReady = Some exampleNode /\
  setSuppressionLevel (VNumber PosInfinity) exampleReady <> (exampleReady, []) /\
  snd (setSuppressionLevel (VNumber PosInfinity) exampleReady) =
    [PostMessage exampleNode (SET_SUPPRESSION_LEVEL (of_Z 100))].
Proof. repeat split; [discriminate]. Qed.

(** C8: with an execution handle, [isNoiseSuppressionEnabled()] after
    [setNoiseSuppressionEnabled(b)] is [b], the negation of the recorded
    bypass flag; the flag is recorded whatever happens to the message. *)
Theorem isNoiseSuppressionEnabled_after_set (b : bool) (p : Processor)
    (node : AudioWorkletNode) :
  workletNode p = Some node ->
  let p' := fst (setNoiseSuppressionEnabled b p) in
  isNoiseSuppressionEnabled p' = b /\
  isNoiseSuppressionEnabled p' = negb (bypassEnabled p') /\
  bypassEnabled p' = negb b /\
  snd (setNoiseSuppressionEnabled b p) = [PostMessage node (SET_BYPASS (negb b))] /\
  isNoiseSuppressionEnabled (fst (setNoiseSuppressionEnabled false p)) = false.
Proof.
  intros Hnode. unfold setNoiseSuppressionEnabled, isNoiseSuppressionEnabled.
  rewrite Hnode. simpl. now rewrite negb_involutive.
Qed.

Lemma isNoiseSuppressionEnabled_after_set_witness :
  isNoiseSuppressionEnabled (fst (setNoiseSuppressionEnabled false exampleReady)) = false.
Proof.
  apply (isNoiseSuppressionEnabled_after_set false exampleReady exampleNode).
  reflexivity.
Defined.

(** ** Guards of [createAudioWorkletNode] *)

(** C4: [createAudioWorkletNode] on an instance that is not initialized
    fails with the "not initialized" error, whose message names
    [DeepFilterNet3Processor.create()]; on an initialized instance without
    assets it fails with "Assets not loaded".  In both cases the call ends
    before its [await], the instance is unchanged and no node is built. *)
Theorem createAudioWorkletNode_guards (ctx : AudioContext) (loaded : settled unit)
    (p : Processor) :
  (isInitialized p = false ->
     createAudioWorkletNode_start p = Rejected (Error NOT_INITIALIZED) /\
     createAudioWorkletNode ctx loaded p = (p, Rejected (Error NOT_INITIALIZED))) /\
  (isInitialized p = true -> assets p = None ->
     createAudioWorkletNode_start p = Rejected (Error "Assets not loaded") /\
     createAudioWorkletNode ctx loaded p = (p, Rejected (Error "Assets not loaded"))) /\
  is_Some (String.index 0 "DeepFilterNet3Processor.create()" NOT_INITIALIZED) /\
  is_Some (String.index 0 "not initialized" NOT_INITIALIZED).
Proof.
  unfold createAudioWorkletNode, createAudioWorkletNode_start, ensureInitialized.
  split; [| split; [| split]].
  - intros ->. split; reflexivity.
  - intros -> ->. split; reflexivity.
  - vm_compute. eauto.
  - vm_compute. eauto.
Qed.

Lemma createAudioWorkletNode_guards_witness :
  createAudioWorkletNode exampleContext (Fulfilled tt) (constructor emptyConfig) =
    (constructor emptyConfig, Rejected (Error NOT_INITIALIZED)) /\
  createAudioWorkletNode exampleContext (Fulfilled tt)
      (set_isInitialized true (constructor emptyConfig)) =
    (set_isInitialized true (constructor emptyConfig), Rejected (Error "Assets not loaded")).
Proof.
  split.
  - apply (createAudioWorkletNode_guards exampleContext (Fulfilled tt)
             (constructor emptyConfig)). reflexivity.
  - apply (createAudioWorkletNode_guards exampleContext (Fulfilled tt)
             (set_isInitialized true (constructor emptyConfig))); reflexivity.
Defined.

(** ** Defaults *)

(** C10: the constructor fills an absent [sampleRate] with 48000 and an
    absent [noiseReductionLevel] with 50 and keeps the fields that are
    present; the node built by [createAudioWorkletNode] gets the instance's
    [noiseReductionLevel] as its [suppressionLevel]. *)
Theorem constructor_defaults (cfg : DeepFilterNet3ProcessorConfig) :
  sampleRate (config (constructor cfg)) = Some (sampleRate cfg ?? of_Z 48000) /\
  noiseReductionLevel (config (constructor cfg)) =
    Some (noiseReductionLevel cfg ?? of_Z 50) /\
  (sampleRate cfg = None ->
     sampleRate (config (constructor cfg)) = Some (of_Z 48000)) /\
  (noiseReductionLevel cfg = None ->
     noiseReductionLevel (config (constructor cfg)) = Some (of_Z 50)) /\
  (forall x, sampleRate cfg = Some x -> sampleRate (config (constructor cfg)) = Some x) /\
  (forall x, noiseReductionLevel cfg = Some x ->
     noiseReductionLevel (config (constructor cfg)) = Some x) /\
  (forall (p : Processor) (a : ProcessorAssets) (ctx : AudioContext),
     isInitialized p = true -> assets p = Some a ->
     exists node,
       createAudioWorkletNode ctx (Fulfilled tt) p =
         (set_workletNode (Some node) p, Fulfilled node) /\
       suppressionLevel (processorOptions node) = noiseReductionLevel (config p) /\
       optWasmModule (processorOptions node) = wasmModule a /\
       optModelBytes (processorOptions node) = modelBytes a) /\
  (forall (a : ProcessorAssets) (ctx : AudioContext),
     exists node,
       snd (createAudioWorkletNode ctx (Fulfilled tt)
              (fst (initialize_resume (Fulfilled a) (constructor cfg)))) =
         Fulfilled node /\
       suppressionLevel (processorOptions node) =
         Some (noiseReductionLevel cfg ?? of_Z 50)).
Proof.
  split; [reflexivity |]. split; [reflexivity |].
  split; [intros H; simpl; now rewrite H |].
  split; [intros H; simpl; now rewrite H |].
  split; [intros x H; simpl; now rewrite H |].
  split; [intros x H; simpl; now rewrite H |].
  split.
  - intros p a ctx Hinit Hassets.
    unfold createAudioWorkletNode, createAudioWorkletNode_start,
      createAudioWorkletNode_resume, ensureInitialized.
    rewrite Hinit, Hassets. simpl. eexists. repeat split.
  - intros a ctx. eexists. split; reflexivity.
Qed.

Lemma constructor_defaults_witness :
  sampleRate (config (constructor emptyConfig)) = Some (of_Z 48000) /\
  noiseReductionLevel (config (constructor emptyConfig)) = Some (of_Z 50).
Proof.
  destruct (constructor_defaults emptyConfig) as (_ & _ & Hrate & Hlevel & _).
  split; [apply Hrate | apply Hlevel]; reflexivity.
Defined.

(** ** Invariants of an instance *)

Lemma instanceInv_constructor cfg : instanceInv cfg (constructor cfg).
Proof. repeat split. Qed.

Lemma instanceInv_born cfg s : instanceInv cfg (this (born cfg s)).
Proof. destruct s; repeat split; simpl; congruence. Qed.

Lemma instanceInv_invoke cfg call c :
  instanceInv cfg (this c) -> instanceInv cfg (this (invoke call c)).
Proof.
  intros Hinv.
  destruct call as [ctx | ctx loaded | level | enabled |]; simpl.
  - now destruct (createAudioWorkletNode_start (this c)).
  - destruct (takeContext ctx (suspended c)); [| assumption].
    simpl. unfold createAudioWorkletNode_resume.
    destruct loaded; [| assumption].
    destruct (assets (this c)) eqn:Ha; [| assumption].
    destruct Hinv as (Hassets & Hnode & Hcfg & Hloader).
    unfold instanceInv; simpl. rewrite Ha in *. simpl in Hassets.
    split; [assumption |]. split; [| split; assumption].
    intros Hfalse. rewrite Hfalse in Hassets. discriminate.
  - pose proof (setSuppressionLevel_same_instance level (this c)) as Hsame.
    destruct (setSuppressionLevel level (this c)) as [p effs]. simpl in *.
    now subst p.
  - unfold setNoiseSuppressionEnabled.
    destruct (workletNode (this c)) eqn:Hn; [| assumption].
    destruct Hinv as (Hassets & Hnode & Hcfg & Hloader).
    unfold instanceInv; simpl. split; [assumption |].
    split; [| split; assumption].
    intros Hfalse. apply Hnode in Hfalse. congruence.
  - unfold destroy.
    destruct (isInitialized (this c)) eqn:Hi; simpl; [| assumption].
    destruct Hinv as (Hassets & Hnode & Hcfg & Hloader).
    destruct (workletNode (this c)) eqn:Hn; unfold instanceInv; simpl;
      (split; [reflexivity |]); (split; [| split; assumption]); auto.
Qed.

Lemma instanceInv_invokeAll cfg calls c :
  instanceInv cfg (this c) -> instanceInv cfg (this (invokeAll calls c)).
Proof.
  revert c. induction calls as [| call calls IH]; intros c Hinv; simpl.
  - assumption.
  - apply IH. now apply instanceInv_invoke.
Qed.

Lemma instanceInv_instanceAfter cfg s calls : instanceInv cfg (instanceAfter cfg s calls).
Proof. apply instanceInv_invokeAll, instanceInv_born. Qed.

(** ** Teardown *)

Lemma Processor_eq (p q : Processor) :
  assetLoader p = assetLoader q -> assets p = assets q ->
  workletNode p = workletNode q -> isInitialized p = isInitialized q ->
  bypassEnabled p = bypassEnabled q -> config p = config q -> p = q.
Proof. destruct p, q; simpl; intros; congruence. Qed.

Lemma destroy_shape (cfg : DeepFilterNet3ProcessorConfig) (p : Processor) :
  instanceInv cfg p ->
  fst (destroy p) = set_bypassEnabled (bypassEnabled p) (constructor cfg).
Proof.
  intros (Hassets & Hnode & Hcfg & Hloader). unfold destroy.
  simpl in Hcfg, Hloader.
  destruct (isInitialized p) eqn:Hi; simpl.
  - destruct (workletNode p) eqn:Hn; apply Processor_eq; simpl; auto.
  - apply Processor_eq; simpl; auto.
    now destruct (assets p).
Qed.

(** C5, as the code has it: [destroy()] on an instance that is not
    initialized changes nothing; on an initialized one it disconnects the
    node (when there is one) and leaves the instance as the constructor
    made it, except for the bypass flag, which it keeps.  A second
    [destroy()] changes nothing, and after [destroy()] the two control
    operations change nothing and post nothing. *)
Theorem destroy_resets_lifecycle (cfg : DeepFilterNet3ProcessorConfig)
    (s : settled ProcessorAssets) (calls : list Call) :
  let p := instanceAfter cfg s calls in
  let p' := fst (destroy p) in
  (if isInitialized p
   then snd (destroy p) =
          match workletNode p with Some node => [Disconnect node] | None => [] end
   else destroy p = (p, [])) /\
  workletNode p' = None /\ assets p' = None /\ isInitialized p' = false /\
  bypassEnabled p' = bypassEnabled p /\
  p' = set_bypassEnabled (bypassEnabled p) (constructor cfg) /\
  destroy p' = (p', []) /\
  (forall level, setSuppressionLevel level p' = (p', [])) /\
  (forall enabled, setNoiseSuppressionEnabled enabled p' = (p', [])).
Proof.
  intros p p'.
  assert (Hshape : p' = set_bypassEnabled (bypassEnabled p) (constructor cfg)).
  { apply destroy_shape, instanceInv_instanceAfter. }
  split.
  - unfold destroy. destruct (isInitialized p); [| reflexivity].
    now destruct (workletNode p).
  - rewrite Hshape. repeat split.
Qed.

(** C5 as stated fails: after [setNoiseSuppressionEnabled(false)] and
    [destroy()] the instance still reports suppression as disabled, which a
    freshly constructed instance does not. *)
Lemma destroy_keeps_bypass :
  let p := instanceAfter emptyConfig (Fulfilled exampleAssets)
             [CreateAudioWorkletNode exampleContext;
              ModuleLoaded exampleContext (Fulfilled tt);
              SetNoiseSuppressionEnabled false;
              Destroy] in
  p <> constructor emptyConfig /\
  isNoiseSuppressionEnabled p = false /\
  isNoiseSuppressionEnabled (constructor emptyConfig) = true.
Proof.
  split; [| split; reflexivity].
  intros Heq. apply (f_equal bypassEnabled) in Heq. discriminate Heq.
Qed.

(** ** The asset cache *)

Lemma wf_initialWorld : wf initialWorld.
Proof.
  split; simpl.
  - intros p. rewrite lookup_empty. split; [intros [x Hx]; discriminate | lia].
  - discriminate.
Qed.

Lemma settle_fields (p : PromiseId) (c : Completion) (w : World) :
  preloadPromise (settle p c w) = preloadPromise w /\
  preloadConfig (settle p c w) = preloadConfig w /\
  nextPromise (settle p c w) = nextPromise w /\
  fetchLog (settle p c w) = fetchLog w.
Proof. unfold settle. destruct (promises w !! p) as [[|]|]; repeat split. Qed.

Lemma settle_lookup (p q : PromiseId) (c : Completion) (w : World) :
  promises (settle p c w) !! q =
    match promises w !! q with
    | Some Pending => if decide (p = q) then Some (Settled (acquisition p c)) else Some Pending
    | o => o
    end.
Proof.
  unfold settle. destruct (promises w !! p) as [[|]|] eqn:Hp; simpl.
  - rewrite lookup_insert. destruct (decide (p = q)) as [<- | Hne].
    + now rewrite Hp.
    + now destruct (promises w !! q) as [[|]|].
  - destruct (promises w !! q) as [[|]|] eqn:Hq; try reflexivity.
    destruct (decide (p = q)) as [<- | Hne]; [congruence | reflexivity].
  - destruct (promises w !! q) as [[|]|] eqn:Hq; try reflexivity.
    destruct (decide (p = q)) as [<- | Hne]; [congruence | reflexivity].
Qed.

(** The end of one acquisition, success or failure, changes no other promise. *)
Lemma settle_other (p q : PromiseId) (c : Completion) (w : World) :
  p <> q -> promises (settle p c w) !! q = promises w !! q.
Proof.
  intros Hne. rewrite settle_lookup.
  destruct (promises w !! q) as [[|]|]; try reflexivity.
  now destruct (decide (p = q)).
Qed.

Lemma wf_settle (p : PromiseId) (c : Completion) (w : World) :
  wf w -> wf (settle p c w).
Proof.
  intros [Hdom Hslot].
  destruct (settle_fields p c w) as (Hp & _ & Hn & _).
  split.
  - intros q. rewrite Hn, <- Hdom, settle_lookup.
    destruct (promises w !! q) as [[|]|]; [| tauto | tauto].
    destruct (decide (p = q)); split; eauto.
  - intros q. rewrite Hp, Hn. apply Hslot.
Qed.

Section CacheProperties.

Variable getAssetUrls : AssetLoader -> AssetUrls.

Lemma wf_startAcquisition ac w : wf w -> wf (snd (startAcquisition getAssetUrls ac w)).
Proof.
  intros [Hdom Hslot]. split; simpl.
  - intros q. rewrite lookup_insert_is_Some, Hdom. lia.
  - intros q [= <-]. lia.
Qed.

Lemma preload_hit cfg w p :
  preloadPromise w = Some p ->
  effectiveLocation cfg = cdnUrlOf (preloadConfig w) ->
  preload getAssetUrls cfg w = (p, w).
Proof.
  intros Hp Hloc. unfold preload. rewrite Hp.
  fold (effectiveLocation cfg). rewrite Hloc, String.eqb_refl. reflexivity.
Qed.

Lemma preload_miss cfg w :
  ~ cacheHolds (effectiveLocation cfg) w ->
  preload getAssetUrls cfg w = startAcquisition getAssetUrls (targetAssetConfigOf cfg) w.
Proof.
  intros Hmiss. unfold preload.
  destruct (preloadPromise w) as [p |] eqn:Hp; [| reflexivity].
  fold (effectiveLocation cfg).
  destruct (String.eqb_spec (effectiveLocation cfg) (cdnUrlOf (preloadConfig w)))
    as [Heq | Hne]; [| reflexivity].
  exfalso. apply Hmiss. split; [rewrite Hp; eauto | congruence].
Qed.

Lemma cacheHolds_dec L w : cacheHolds L w \/ ~ cacheHolds L w.
Proof.
  unfold cacheHolds.
  destruct (preloadPromise w) as [p |].
  - destruct (String.eqb_spec (cdnUrlOf (preloadConfig w)) L).
    + left. eauto.
    + right. tauto.
  - right. intros [[x Hx] _]. discriminate.
Qed.

Lemma wf_preload cfg w : wf w -> wf (snd (preload getAssetUrls cfg w)).
Proof.
  intros Hwf.
  destruct (cacheHolds_dec (effectiveLocation cfg) w) as [[[p Hp] Hloc] | Hmiss].
  - now rewrite (preload_hit cfg w p).
  - rewrite preload_miss by assumption. now apply wf_startAcquisition.
Qed.

Lemma step_request ev cfg w :
  preloadArg ev = Some cfg ->
  step getAssetUrls ev w =
    (Some (fst (preload getAssetUrls cfg w)), snd (preload getAssetUrls cfg w)).
Proof.
  destruct ev as [c | c | p c]; simpl; intros [= <-].
  - now destruct (preload getAssetUrls c w).
  - unfold create_start, initialize_start. simpl.
    now destruct (preload getAssetUrls _ w).
Qed.

Lemma step_settle ev w :
  preloadArg ev = None ->
  exists p c, step getAssetUrls ev w = (None, settle p c w).
Proof. destruct ev as [c | c | p c]; simpl; try discriminate. eauto. Qed.

Lemma wf_step ev w : wf w -> wf (snd (step getAssetUrls ev w)).
Proof.
  intros Hwf. destruct (preloadArg ev) as [cfg |] eqn:Harg.
  - rewrite (step_request ev cfg w Harg). simpl. now apply wf_preload.
  - destruct (step_settle ev w Harg) as (p & c & ->). simpl. now apply wf_settle.
Qed.

Lemma run_cons ev evs w :
  run getAssetUrls (ev :: evs) w =
    (match fst (step getAssetUrls ev w) with
     | Some p => p :: fst (run getAssetUrls evs (snd (step getAssetUrls ev w)))
     | None => fst (run getAssetUrls evs (snd (step getAssetUrls ev w)))
     end,
     snd (run getAssetUrls evs (snd (step getAssetUrls ev w)))).
Proof.
  cbn [run]. destruct (step getAssetUrls ev w) as [o w1].
  cbn [fst snd]. destruct (run getAssetUrls evs w1) as [ps w2]. now destruct o.
Qed.

Lemma wf_run evs w : wf w -> wf (snd (run getAssetUrls evs w)).
Proof.
  revert w. induction evs as [| ev evs IH]; intros w Hwf; [assumption |].
  rewrite run_cons. simpl. apply IH. now apply wf_step.
Qed.

(** A promise settles once: whatever happens later, a settled promise
    keeps its outcome. *)
Lemma step_settled_stable ev w q s :
  wf w -> await q w = Some s -> await q (snd (step getAssetUrls ev w)) = Some s.
Proof.
  intros [Hdom Hslot] Hq. unfold await in *.
  destruct (promises w !! q) as [[| s'] |] eqn:Hlook; try discriminate.
  destruct (preloadArg ev) as [cfg |] eqn:Harg.
  - rewrite (step_request ev cfg w Harg). simpl.
    destruct (cacheHolds_dec (effectiveLocation cfg) w) as [[[p Hp] Hloc] | Hmiss].
    + rewrite (preload_hit cfg w p) by auto. simpl. now rewrite Hlook.
    + rewrite preload_miss by assumption. simpl.
      rewrite lookup_insert_ne; [now rewrite Hlook |].
      assert (q < nextPromise w) by (apply Hdom; rewrite Hlook; eauto). lia.
  - destruct (step_settle ev w Harg) as (p & c & ->). simpl.
    rewrite settle_lookup, Hlook. assumption.
Qed.

Lemma run_settled_stable evs w q s :
  wf w -> await q w = Some s -> await q (snd (run getAssetUrls evs w)) = Some s.
Proof.
  revert w. induction evs as [| ev evs IH]; intros w Hwf Hq; [assumption |].
  rewrite run_cons. simpl. apply IH; [now apply wf_step | now apply step_settled_stable].
Qed.

End CacheProperties.

Section SingleFlight.

Variable getAssetUrls : AssetLoader -> AssetUrls.

Lemma cacheHolds_settle L p c w : cacheHolds L (settle p c w) <-> cacheHolds L w.
Proof.
  unfold cacheHolds. destruct (settle_fields p c w) as (-> & -> & _). tauto.
Qed.

(** While the cache holds the entry of [L], requests for [L] all get the
    stored promise and leave the cache and the fetch log as they are. *)
Lemma run_hit L p evs w :
  preloadPromise w = Some p ->
  cdnUrlOf (preloadConfig w) = L ->
  requestsFor L evs ->
  fst (run getAssetUrls evs w) = map (fun _ => p) (List.filter isRequest evs) /\
  preloadPromise (snd (run getAssetUrls evs w)) = Some p /\
  preloadConfig (snd (run getAssetUrls evs w)) = preloadConfig w /\
  fetchLog (snd (run getAssetUrls evs w)) = fetchLog w /\
  nextPromise (snd (run getAssetUrls evs w)) = nextPromise w.
Proof.
  intros Hp Hloc Hreq. revert w Hp Hloc.
  induction Hreq as [| ev evs Hev Hevs IH]; intros w Hp Hloc.
  - simpl. auto.
  - rewrite run_cons. cbn [fst snd List.filter].
    assert (Hisreq : isRequest ev = not_null (preloadArg ev)) by reflexivity.
    unfold requestLocation in Hev.
    destruct (preloadArg ev) as [cfg |] eqn:Harg; rewrite Hisreq.
    + rewrite (step_request _ ev cfg w Harg).
      rewrite (preload_hit _ cfg w p) by (try rewrite (Hev _ eq_refl); auto).
      cbn [fst snd not_null map]. destruct (IH w Hp Hloc) as (-> & H). auto.
    + destruct (step_settle getAssetUrls ev w Harg) as (q & c & ->).
      cbn [fst snd not_null].
      destruct (settle_fields q c w) as (Hp' & Hc' & Hn' & Hl').
      destruct (IH (settle q c w)) as (-> & -> & -> & -> & ->);
        [congruence | congruence |]. auto.
Qed.

(** Requests that are all for one base location share one promise, and
    between them start at most one acquisition. *)
Lemma run_same_location L evs w :
  requestsFor L evs ->
  exists p,
    fst (run getAssetUrls evs w) = map (fun _ => p) (List.filter isRequest evs) /\
    ((cacheHolds L w /\ preloadPromise w = Some p /\
      preloadPromise (snd (run getAssetUrls evs w)) = Some p /\
      fetchLog (snd (run getAssetUrls evs w)) = fetchLog w) \/
     (~ cacheHolds L w /\ List.filter isRequest evs = [] /\
      preloadPromise (snd (run getAssetUrls evs w)) = preloadPromise w /\
      fetchLog (snd (run getAssetUrls evs w)) = fetchLog w) \/
     (~ cacheHolds L w /\ List.filter isRequest evs <> [] /\
      p = nextPromise w /\
      preloadPromise (snd (run getAssetUrls evs w)) = Some p /\
      exists ac, cdnUrlOf ac = L /\
        fetchLog (snd (run getAssetUrls evs w)) =
          (fetchLog w ++ fetchesOf getAssetUrls ac)%list)).
Proof.
  intros Hreq.
  destruct (cacheHolds_dec L w) as [Hhit | Hmiss].
  { destruct Hhit as [[p Hp] Hloc].
    destruct (run_hit L p evs w Hp Hloc Hreq) as (Hps & Hp' & _ & Hlog & _).
    exists p. split; [assumption |]. left. repeat split; eauto. }
  revert w Hmiss. induction Hreq as [| ev evs Hev Hevs IH]; intros w Hmiss.
  - exists 0. split; [reflexivity |]. right; left. auto.
  - rewrite run_cons. cbn [fst snd List.filter].
    assert (Hisreq : isRequest ev = not_null (preloadArg ev)) by reflexivity.
    unfold requestLocation in Hev.
    destruct (preloadArg ev) as [cfg |] eqn:Harg; rewrite Hisreq.
    + pose proof (Hev _ eq_refl) as Hcfg.
      rewrite (step_request _ ev cfg w Harg).
      rewrite preload_miss by (rewrite Hcfg; assumption).
      set (w1 := snd (startAcquisition getAssetUrls (targetAssetConfigOf cfg) w)).
      assert (Hrest := run_hit L (nextPromise w) evs w1 eq_refl Hcfg Hevs).
      destruct Hrest as (Hps & Hp' & _ & Hlog & _).
      exists (nextPromise w). cbn [fst snd not_null map].
      split; [now rewrite Hps |]. right; right.
      split; [assumption |]. split; [easy |]. split; [reflexivity |].
      split; [assumption |]. exists (targetAssetConfigOf cfg).
      split; [assumption |]. rewrite Hlog. reflexivity.
    + destruct (step_settle getAssetUrls ev w Harg) as (q & c & ->).
      cbn [fst snd not_null].
      destruct (settle_fields q c w) as (Hp' & Hc' & Hn' & Hl').
      destruct (IH (settle q c w)) as (p & Hps & Hcases).
      { now rewrite cacheHolds_settle. }
      exists p. split; [assumption |].
      rewrite cacheHolds_settle, Hp', Hn', Hl' in Hcases. exact Hcases.
Qed.

End SingleFlight.

Section CacheClaims.

Variable getAssetUrls : AssetLoader -> AssetUrls.

(** C1, as the code has it: the cache has one slot, for the base location
    requested last.  A request for a base location the slot does not hold
    starts an acquisition of its own (a new promise, one fetch per asset)
    and leaves every earlier promise as it is, pending or settled, as does
    the end of any acquisition for the promises of the others; but it
    takes over the slot, so the entry of the previous location is no
    longer cached and a later request for that location starts afresh. *)
Theorem cache_has_one_slot (cfg : option DeepFilterNet3ProcessorConfig) (w : World) :
  wf w ->
  ~ cacheHolds (effectiveLocation cfg) w ->
  let p := fst (preload getAssetUrls cfg w) in
  let w' := snd (preload getAssetUrls cfg w) in
  p = nextPromise w /\
  promises w !! p = None /\
  promises w' !! p = Some Pending /\
  fetchLog w' = (fetchLog w ++ fetchesOf getAssetUrls (targetAssetConfigOf cfg))%list /\
  (forall q, q <> p -> promises w' !! q = promises w !! q) /\
  (forall q r c, q <> r -> promises (settle q c w') !! r = promises w' !! r) /\
  preloadPromise w' = Some p /\
  cacheHolds (effectiveLocation cfg) w' /\
  (forall p0 cfg0,
      preloadPromise w = Some p0 ->
      effectiveLocation cfg0 = cdnUrlOf (preloadConfig w) ->
      fst (preload getAssetUrls cfg0 w') = nextPromise w' /\
      fst (preload getAssetUrls cfg0 w') <> p0 /\
      fetchLog (snd (preload getAssetUrls cfg0 w')) =
        (fetchLog w' ++ fetchesOf getAssetUrls (targetAssetConfigOf cfg0))%list).
Proof.
  intros [Hdom Hslot] Hmiss p w'. subst p w'.
  rewrite preload_miss by assumption. simpl.
  split; [reflexivity |].
  split.
  { destruct (promises w !! nextPromise w) eqn:Hlook; [| reflexivity].
    assert (nextPromise w < nextPromise w) by (apply Hdom; eauto). lia. }
  split; [apply lookup_insert_eq |].
  split; [reflexivity |].
  split; [intros q Hq; now apply lookup_insert_ne |].
  split; [intros q r c Hne; now apply settle_other |].
  split; [reflexivity |].
  split; [split; simpl; eauto |].
  intros p0 cfg0 Hp0 Hloc0.
  rewrite preload_miss.
  - simpl. split; [reflexivity |]. split; [| reflexivity].
    apply Hslot in Hp0. lia.
  - intros [_ Hheld]. simpl in Hheld. apply Hmiss. split; [eauto |].
    unfold effectiveLocation in *. congruence.
Qed.

(** C2, as the code has it: requests, by [preload] or by [create], that
    are all for one base location and are not separated by a request for
    another one observe one and the same promise; between them they start
    at most one acquisition, which fetches each asset once; and the
    promise, once settled, keeps its outcome, so all of them receive the
    same assets object. *)
Theorem single_flight (L : string) (evs : list Event) (w : World) :
  wf w ->
  requestsFor L evs ->
  let w' := snd (run getAssetUrls evs w) in
  exists p,
    fst (run getAssetUrls evs w) = map (fun _ => p) (List.filter isRequest evs) /\
    (cacheHolds L w -> preloadPromise w = Some p /\ fetchLog w' = fetchLog w) /\
    (~ cacheHolds L w -> List.filter isRequest evs <> [] ->
       p = nextPromise w /\
       exists ac, cdnUrlOf ac = L /\
         fetchLog w' = (fetchLog w ++ fetchesOf getAssetUrls ac)%list) /\
    (List.filter isRequest evs <> [] -> preloadPromise w' = Some p) /\
    (forall later s,
        await p w' = Some s -> await p (snd (run getAssetUrls later w')) = Some s).
Proof.
  intros Hwf Hreq w'.
  destruct (run_same_location getAssetUrls L evs w Hreq) as (p & Hps & Hcases).
  exists p. split; [assumption |].
  assert (Hstable : forall later s,
             await p w' = Some s ->
             await p (snd (run getAssetUrls later w')) = Some s).
  { intros later s. apply run_settled_stable. now apply wf_run. }
  destruct Hcases as [(Hhit & Hp & Hp' & Hlog) | [(Hmiss & Hnil & Hp' & Hlog)
                     | (Hmiss & Hcons & Hp & Hp' & Hlog)]].
  - repeat split; auto; tauto.
  - repeat split; auto; tauto.
  - repeat split; auto; tauto.
Qed.

(** C9, as the code has it: while the cache holds the entry of a base
    location, a rejected promise stays in it: every request for that base
    location gets the same rejected promise, fetches nothing and leaves
    the slot as it is, and [create] rejects with the same error. *)
Theorem rejection_is_kept (p : PromiseId) (e : error) (evs : list Event) (w : World) :
  wf w ->
  preloadPromise w = Some p ->
  await p w = Some (Rejected e) ->
  requestsFor (cdnUrlOf (preloadConfig w)) evs ->
  let w' := snd (run getAssetUrls evs w) in
  fst (run getAssetUrls evs w) = map (fun _ => p) (List.filter isRequest evs) /\
  fetchLog w' = fetchLog w /\
  nextPromise w' = nextPromise w /\
  preloadPromise w' = Some p /\
  preloadConfig w' = preloadConfig w /\
  await p w' = Some (Rejected e) /\
  (forall processor, create_resume (Rejected e) processor = Rejected e).
Proof.
  intros Hwf Hp Hrej Hreq w'.
  destruct (run_hit getAssetUrls _ p evs w Hp eq_refl Hreq)
    as (Hps & Hp' & Hc' & Hlog & Hnext).
  repeat split; try assumption.
  now apply run_settled_stable.
Qed.

(** C3, as the code has it: [create] constructs an instance and waits for
    the promise [preload] gives for its configuration.  When that promise
    is fulfilled, [create] resolves to the instance, initialized and
    holding the assets, for which [isReady()] is false until
    [createAudioWorkletNode] has built the node.  When it is rejected,
    [create] rejects with the same error and returns no instance; the
    instance under construction stays as the constructor made it. *)
Theorem create_outcome (cfg : option DeepFilterNet3ProcessorConfig) (w : World) :
  let processor := constructor (cfg ?? emptyConfig) in
  create_start getAssetUrls cfg w =
    (processor,
     Some (fst (preload getAssetUrls (Some (config processor)) w)),
     snd (preload getAssetUrls (Some (config processor)) w)) /\
  (forall a,
      exists r,
        create_resume (Fulfilled a) processor = Fulfilled r /\
        isInitialized r = true /\
        assets r = Some a /\
        workletNode r = None /\
        isReady r = false /\
        (forall ctx,
            isReady (fst (createAudioWorkletNode ctx (Fulfilled tt) r)) = true)) /\
  (forall e,
      create_resume (Rejected e) processor = Rejected e /\
      fst (initialize_resume (Rejected e) processor) = processor /\
      isInitialized processor = false /\
      assets processor = None).
Proof.
  intros processor. split; [| split].
  - unfold create_start, initialize_start. fold processor. simpl.
    now destruct (preload getAssetUrls _ w).
  - intros a. eexists. repeat split.
  - intros e. repeat split.
Qed.

End CacheClaims.

(** A test for [requestsFor]. *)
Lemma requestsFor_check (L : string) (evs : list Event) :
  forallb (fun ev => match requestLocation ev with
                     | Some l => String.eqb l L
                     | None => true
                     end) evs = true ->
  requestsFor L evs.
Proof.
  induction evs as [| ev evs IH]; simpl; intros Hall; constructor.
  - apply andb_prop in Hall as [Hev _]. intros l Hl. rewrite Hl in Hev.
    now apply String.eqb_eq.
  - apply IH. now apply andb_prop in Hall as [_ Hall].
Qed.

(** ** The claims at concrete inputs *)

Lemma cache_has_one_slot_witness :
  let w := snd (preload exampleAssetUrls configA initialWorld) in
  wf w /\
  ~ cacheHolds (effectiveLocation configB) w /\
  fst (preload exampleAssetUrls configB w) = nextPromise w.
Proof.
  intros w.
  assert (Hwf : wf w) by apply wf_preload, wf_initialWorld.
  assert (Hmiss : ~ cacheHolds (effectiveLocation configB) w).
  { intros [_ Hloc]. vm_compute in Hloc. discriminate Hloc. }
  split; [exact Hwf |]. split; [exact Hmiss |].
  apply (cache_has_one_slot exampleAssetUrls configB w Hwf Hmiss).
Defined.

(** C1 as stated fails: while the acquisition for location A is in flight,
    a request for location B takes the slot; the entry of A is then no
    longer available, and the next request for A starts a third
    acquisition instead of joining the first. *)
Lemma cache_entry_is_replaced :
  let w1 := snd (preload exampleAssetUrls configA initialWorld) in
  let w2 := snd (preload exampleAssetUrls configB w1) in
  let w3 := snd (preload exampleAssetUrls configA w2) in
  effectiveLocation configA <> effectiveLocation configB /\
  fst (preload exampleAssetUrls configA initialWorld) = 0 /\
  promises w2 !! 0 = Some Pending /\
  preloadPromise w1 = Some 0 /\
  preloadPromise w2 = Some 1 /\
  fst (preload exampleAssetUrls configA w2) = 2 /\
  fst (preload exampleAssetUrls configA w2) <> fst (preload exampleAssetUrls configA initialWorld) /\
  map url (fetchLog w3) =
    ["https://a.example/dfn3/df_bg.wasm"; "https://a.example/dfn3/model.tar.gz";
     "https://b.example/dfn3/df_bg.wasm"; "https://b.example/dfn3/model.tar.gz";
     "https://a.example/dfn3/df_bg.wasm"; "https://a.example/dfn3/model.tar.gz"].
Proof.
  vm_compute. repeat split; try discriminate.
Qed.

Lemma single_flight_witness :
  requestsFor DEFAULT_CDN_URL exampleRequests /\
  exists p,
    fst (run exampleAssetUrls exampleRequests initialWorld) =
      map (fun _ => p) (List.filter isRequest exampleRequests).
Proof.
  assert (Hreq : requestsFor DEFAULT_CDN_URL exampleRequests).
  { apply requestsFor_check. reflexivity. }
  split; [exact Hreq |].
  destruct (single_flight exampleAssetUrls DEFAULT_CDN_URL exampleRequests
              initialWorld wf_initialWorld Hreq) as (p & Hps & _).
  exists p. exact Hps.
Defined.

(** C2 as stated fails: the first and the third request are for the same
    base location, yet they observe different promises, each asset of that
    location is fetched twice, and the two promises resolve to two
    different assets objects. *)
Lemma single_flight_needs_adjacent_requests :
  let evs := [EvPreload configA; EvSettle 0 completionOk; EvCreate configB;
              EvCreate configA; EvSettle 2 completionOk] in
  let w := snd (run exampleAssetUrls evs initialWorld) in
  requestLocation (EvPreload configA) = requestLocation (EvCreate configA) /\
  fst (run exampleAssetUrls evs initialWorld) = [0; 1; 2] /\
  map url (fetchLog w) =
    ["https://a.example/dfn3/df_bg.wasm"; "https://a.example/dfn3/model.tar.gz";
     "https://b.example/dfn3/df_bg.wasm"; "https://b.example/dfn3/model.tar.gz";
     "https://a.example/dfn3/df_bg.wasm"; "https://a.example/dfn3/model.tar.gz"] /\
  option_map (fun s => match s with Fulfilled a => Some (objectId a) | Rejected _ => None end)
    (await 0 w) = Some (Some 0) /\
  option_map (fun s => match s with Fulfilled a => Some (objectId a) | Rejected _ => None end)
    (await 2 w) = Some (Some 2).
Proof.
  vm_compute. repeat split.
Qed.

Lemma rejection_is_kept_witness :
  preloadPromise worldAfterFailure = Some 0 /\
  await 0 worldAfterFailure = Some (Rejected (Error "Failed to fetch")) /\
  fst (run exampleAssetUrls [EvPreload configA; EvCreate configA] worldAfterFailure) = [0; 0] /\
  fetchLog (snd (run exampleAssetUrls [EvPreload configA; EvCreate configA] worldAfterFailure)) =
    fetchLog worldAfterFailure.
Proof.
  assert (Hwf : wf worldAfterFailure) by apply wf_run, wf_initialWorld.
  assert (Hreq : requestsFor (cdnUrlOf (preloadConfig worldAfterFailure))
                   [EvPreload configA; EvCreate configA]).
  { apply requestsFor_check. reflexivity. }
  destruct (rejection_is_kept exampleAssetUrls 0 (Error "Failed to fetch")
              [EvPreload configA; EvCreate configA] worldAfterFailure
              Hwf eq_refl eq_refl Hreq) as (Hps & Hlog & _).
  split; [reflexivity |]. split; [reflexivity |].
  split; [exact Hps | exact Hlog].
Defined.

(** C9 as stated fails: the acquisition for location A has failed; after a
    request for location B, the next request for A does not receive the
    rejected promise but starts a new acquisition, with new fetches. *)
Lemma rejection_is_dropped_by_other_location :
  let evs := [EvPreload configA; EvSettle 0 completionFailed;
              EvPreload configB; EvPreload configA] in
  let w := snd (run exampleAssetUrls evs initialWorld) in
  fst (run exampleAssetUrls evs initialWorld) = [0; 1; 2] /\
  await 0 w = Some (Rejected (Error "Failed to fetch")) /\
  promises w !! 2 = Some Pending /\
  preloadPromise w = Some 2 /\
  length (fetchLog worldAfterFailure) = 2 /\
  length (fetchLog w) = 6.
Proof.
  vm_compute. repeat split.
Qed.

(** C3 as stated fails: [create({})] in a fresh module, with both fetches
    and the compilation succeeding, resolves to an instance for which
    [isReady()] is false. *)
Lemma create_resolves_before_ready :
  let '(processor, awaited, w1) := create_start exampleAssetUrls None initialWorld in
  awaited = Some 0 /\
  await 0 (settle 0 completionOk w1) = Some (Fulfilled exampleAssets) /\
  exists r,
    create_resume (Fulfilled exampleAssets) processor = Fulfilled r /\
    isInitialized r = true /\
    isReady r = false.
Proof.
  vm_compute. repeat split. eexists. repeat split.
Qed.

(** * Further properties of an instance *)

Lemma invokeAll_invariant (P : Processor -> Prop) :
  (forall call c, P (this c) -> P (this (invoke call c))) ->
  forall calls c, P (this c) -> P (this (invokeAll calls c)).
Proof.
  intros Hstep calls. induction calls as [| call calls IH]; intros c HP; simpl.
  - assumption.
  - apply IH. now apply Hstep.
Qed.

Lemma this_invoke_Destroy (c : Client) :
  this (invoke Destroy c) = fst (destroy (this c)) /\
  trace (invoke Destroy c) = (trace c ++ snd (destroy (this c)))%list /\
  suspended (invoke Destroy c) = suspended c.
Proof. simpl. now destruct (destroy (this c)). Qed.

(** No call gives an instance assets it did not have. *)
Lemma invoke_assets (call : Call) (c : Client) :
  assets (this (invoke call c)) = assets (this c) \/
  assets (this (invoke call c)) = None.
Proof.
  destruct call as [ctx | ctx loaded | level | enabled |].
  - simpl. destruct (createAudioWorkletNode_start (this c)); now left.
  - simpl. destruct (takeContext ctx (suspended c)); [| now left].
    simpl. unfold createAudioWorkletNode_resume.
    destruct loaded; [| now left]. destruct (assets (this c)) eqn:Ha; left; simpl; auto.
  - left. simpl.
    pose proof (setSuppressionLevel_same_instance level (this c)) as Hsame.
    destruct (setSuppressionLevel level (this c)) as [p effs]. simpl in *. now subst p.
  - left. simpl. unfold setNoiseSuppressionEnabled.
    now destruct (workletNode (this c)).
  - destruct (this_invoke_Destroy c) as (-> & _). unfold destroy.
    destruct (isInitialized (this c)); simpl; [| now left].
    right. now destruct (workletNode (this c)).
Qed.

(** The assets an instance holds are those its [create] resolved with. *)
Lemma assets_origin (cfg : DeepFilterNet3ProcessorConfig)
    (s : settled ProcessorAssets) (calls : list Call) :
  forall a, assets (instanceAfter cfg s calls) = Some a -> s = Fulfilled a.
Proof.
  unfold instanceAfter.
  apply (invokeAll_invariant (fun p => forall a, assets p = Some a -> s = Fulfilled a)).
  - intros call c HP a0 Ha.
    destruct (invoke_assets call c) as [Hsame | Hnone]; [| congruence].
    apply HP. congruence.
  - intros a0. destruct s; simpl; congruence.
Qed.

(** X1: on every instance a caller can hold, [isReady()] says exactly that a
    node exists; assets are held exactly while the instance is initialized
    and are the ones [create] resolved with; and when [isReady()] is true
    the guards of [createAudioWorkletNode] pass. *)
Theorem ready_means_usable (cfg : DeepFilterNet3ProcessorConfig)
    (s : settled ProcessorAssets) (calls : list Call) :
  let p := instanceAfter cfg s calls in
  isReady p = not_null (workletNode p) /\
  not_null (assets p) = isInitialized p /\
  (forall a, assets p = Some a -> s = Fulfilled a) /\
  (isReady p = true ->
     createAudioWorkletNode_start p = Fulfilled tt /\ assets p <> None).
Proof.
  intros p.
  destruct (instanceInv_instanceAfter cfg s calls) as (Hassets & Hnode & _ & _).
  fold p in Hassets, Hnode.
  split; [| split; [exact Hassets | split; [apply assets_origin |]]].
  - unfold isReady. destruct (isInitialized p); [reflexivity |].
    now rewrite Hnode.
  - unfold isReady. intros Hready. apply andb_prop in Hready as [Hinit _].
    unfold createAudioWorkletNode_start, ensureInitialized.
    rewrite Hinit in *. simpl. destruct (assets p); [split; congruence | discriminate].
Qed.

Lemma ready_means_usable_witness :
  createAudioWorkletNode_start
    (instanceAfter emptyConfig (Fulfilled exampleAssets)
       [CreateAudioWorkletNode exampleContext;
        ModuleLoaded exampleContext (Fulfilled tt)]) = Fulfilled tt.
Proof.
  apply (ready_means_usable emptyConfig (Fulfilled exampleAssets)
           [CreateAudioWorkletNode exampleContext;
            ModuleLoaded exampleContext (Fulfilled tt)]).
  reflexivity.
Defined.

(** X2: the configuration of an instance never changes, and
    [setSuppressionLevel] does not touch it: whatever was called before, a
    node that [createAudioWorkletNode] builds starts at the level chosen at
    construction (50 when none was given), with the assets of [create]. *)
Theorem level_fixed_at_construction (cfg : DeepFilterNet3ProcessorConfig)
    (s : settled ProcessorAssets) (calls : list Call) (ctx : AudioContext)
    (node : AudioWorkletNode) :
  snd (createAudioWorkletNode ctx (Fulfilled tt) (instanceAfter cfg s calls)) =
    Fulfilled node ->
  config (instanceAfter cfg s calls) = config (constructor cfg) /\
  suppressionLevel (processorOptions node) = Some (noiseReductionLevel cfg ?? of_Z 50) /\
  nodeContext node = ctx /\
  exists a, s = Fulfilled a /\
    optWasmModule (processorOptions node) = wasmModule a /\
    optModelBytes (processorOptions node) = modelBytes a.
Proof.
  destruct (instanceInv_instanceAfter cfg s calls) as (_ & _ & Hcfg & _).
  pose proof (assets_origin cfg s calls) as Horigin.
  set (p := instanceAfter cfg s calls) in *.
  unfold createAudioWorkletNode, createAudioWorkletNode_resume.
  destruct (createAudioWorkletNode_start p) as [u | e]; [| discriminate].
  destruct (assets p) as [a |] eqn:Ha; [| discriminate].
  simpl. intros [= <-]. simpl. rewrite Hcfg. simpl.
  split; [reflexivity |]. split; [reflexivity |]. split; [reflexivity |].
  exists a. split; [now apply Horigin | split; reflexivity].
Qed.

Lemma level_fixed_at_construction_witness :
  suppressionLevel (processorOptions exampleNode) = Some (of_Z 50).
Proof.
  apply (level_fixed_at_construction emptyConfig (Fulfilled exampleAssets)
           [CreateAudioWorkletNode exampleContext;
            ModuleLoaded exampleContext (Fulfilled tt);
            SetSuppressionLevel (VNumber (of_Z 10))]
           exampleContext exampleNode).
  reflexivity.
Defined.

(** On an instance that has been torn down no call does anything. *)
Lemma torn_invoke (call : Call) (c : Client) :
  torn (this c) ->
  this (invoke call c) = this c /\ trace (invoke call c) = trace c.
Proof.
  intros (Hinit & Hassets & Hnode).
  destruct call as [ctx | ctx loaded | level | enabled |]; simpl.
  - now destruct (createAudioWorkletNode_start (this c)).
  - destruct (takeContext ctx (suspended c)); [| split; reflexivity].
    simpl. unfold createAudioWorkletNode_resume. rewrite Hassets.
    now destruct loaded.
  - unfold setSuppressionLevel. rewrite Hnode. simpl. now rewrite app_nil_r.
  - unfold setNoiseSuppressionEnabled. rewrite Hnode. simpl. now rewrite app_nil_r.
  - unfold destroy. rewrite Hinit. simpl. now rewrite app_nil_r.
Qed.

Lemma torn_invokeAll (calls : list Call) (c : Client) :
  torn (this c) ->
  this (invokeAll calls c) = this c /\ trace (invokeAll calls c) = trace c.
Proof.
  revert c. induction calls as [| call calls IH]; intros c Htorn; simpl.
  - split; reflexivity.
  - destruct (torn_invoke call c Htorn) as [Hthis Htrace].
    destruct (IH (invoke call c)) as [Hthis' Htrace'].
    + now rewrite Hthis.
    + split; congruence.
Qed.

(** X3: [destroy()] is final.  After it, whatever is called, and whenever a
    suspended [createAudioWorkletNode] resumes, the instance stays as
    [destroy()] left it, nothing is posted or disconnected, [isReady()] is
    false and [createAudioWorkletNode] fails with the "not initialized"
    error: no public method initializes an instance again. *)
Theorem destroy_is_final (cfg : DeepFilterNet3ProcessorConfig)
    (s : settled ProcessorAssets) (before after : list Call) :
  let d := invoke Destroy (invokeAll before (born cfg s)) in
  this (invokeAll after d) = this d /\
  trace (invokeAll after d) = trace d /\
  isReady (this (invokeAll after d)) = false /\
  (forall ctx loaded,
      createAudioWorkletNode ctx loaded (this (invokeAll after d)) =
        (this d, Rejected (Error NOT_INITIALIZED))).
Proof.
  intros d.
  assert (Htorn : torn (this d)).
  { unfold d. destruct (this_invoke_Destroy (invokeAll before (born cfg s))) as (-> & _).
    rewrite (destroy_shape cfg) by apply instanceInv_invokeAll, instanceInv_born.
    repeat split. }
  destruct (torn_invokeAll after d Htorn) as [Hthis Htrace].
  rewrite Hthis. destruct Htorn as (Hinit & Hassets & Hnode).
  split; [reflexivity |]. split; [assumption |]. split.
  - unfold isReady. now rewrite Hinit.
  - intros ctx loaded.
    unfold createAudioWorkletNode, createAudioWorkletNode_start, ensureInitialized.
    now rewrite Hinit.
Qed.

(** X4: the checks of [createAudioWorkletNode] are made before its [await]
    only.  When [destroy()] runs while the call is suspended, the call
    fails on resumption with a [TypeError] (it reads [wasmModule] of
    [null]) and builds no node; when [createWorkletModule] fails, the call
    fails with that error and leaves the instance, and a node built
    earlier, as they were. *)
Theorem destroy_while_module_loads (p : Processor) (a : ProcessorAssets)
    (ctx : AudioContext) :
  isInitialized p = true ->
  assets p = Some a ->
  createAudioWorkletNode_start p = Fulfilled tt /\
  createAudioWorkletNode_resume ctx (Fulfilled tt) (fst (destroy p)) =
    (fst (destroy p),
     Rejected (TypeError "Cannot read properties of null (reading 'wasmModule')")) /\
  workletNode (fst (destroy p)) = None /\
  (forall e, createAudioWorkletNode ctx (Rejected e) p = (p, Rejected e)).
Proof.
  intros Hinit Hassets.
  unfold createAudioWorkletNode, createAudioWorkletNode_start, ensureInitialized,
    createAudioWorkletNode_resume, destroy.
  rewrite Hinit, Hassets. simpl.
  destruct (workletNode p) eqn:Hnode; simpl; repeat split; assumption.
Qed.

Lemma destroy_while_module_loads_witness :
  workletNode (fst (destroy exampleReady)) = None.
Proof.
  apply (destroy_while_module_loads exampleReady exampleAssets exampleContext);
    reflexivity.
Defined.

(** X5: whatever the argument, [setSuppressionLevel] posts at most one
    message, to the current node, and its value is an integer between 0
    and 100: no NaN, no infinity and no fraction reaches the worklet. *)
Theorem posted_level_in_range (level : value) (p : Processor) :
  length (snd (setSuppressionLevel level p)) <= 1 /\
  (forall eff, In eff (snd (setSuppressionLevel level p)) ->
     exists node k,
       workletNode p = Some node /\
       eff = PostMessage node (SET_SUPPRESSION_LEVEL (of_Z k)) /\
       (0 <= k <= 100)%Z).
Proof.
  unfold setSuppressionLevel.
  destruct (workletNode p) as [node |]; [| simpl; split; [lia | intros eff []]].
  destruct level as [| | | | x |]; simpl; try (split; [lia | intros eff []]).
  destruct x as [| | | q]; simpl; (split; [lia |]); intros eff Hin;
    try destruct Hin as [<- | []]; try destruct Hin.
  - exists node, 100%Z. repeat split; lia.
  - exists node, 0%Z. repeat split; lia.
  - exists node, (Z.max 0 (Z.min 100 (Qfloor q))).
    split; [reflexivity |]. split; [| apply clamp_range].
    rewrite <- clamp_of_Z. reflexivity.
Qed.

Lemma posted_level_in_range_witness :
  exists node k,
    workletNode exampleReady = Some node /\
    PostMessage exampleNode (SET_SUPPRESSION_LEVEL (of_Z 100)) =
      PostMessage node (SET_SUPPRESSION_LEVEL (of_Z k)) /\
    (0 <= k <= 100)%Z.
Proof.
  apply (posted_level_in_range (VNumber PosInfinity) exampleReady).
  left. reflexivity.
Defined.

Lemma setSuppressionLevel_effects (level : value) (p : Processor) :
  snd (setSuppressionLevel level p) = [] \/
  exists node m, workletNode p = Some node /\
    snd (setSuppressionLevel level p) = [PostMessage node m].
Proof.
  unfold setSuppressionLevel.
  destruct (workletNode p) as [node |]; [| now left].
  destruct level as [| | | | x |]; simpl; try now left.
  destruct (isNaN x); [now left | right; eauto].
Qed.

Lemma set_bypassEnabled_same (p : Processor) :
  set_bypassEnabled (bypassEnabled p) p = p.
Proof. now destruct p. Qed.

Lemma control_invokeAll (node : AudioWorkletNode) (calls : list Call) (c : Client) :
  workletNode (this c) = Some node ->
  forallb isControl calls = true ->
  this (invokeAll calls c) =
    set_bypassEnabled (negb (lastEnabled calls (negb (bypassEnabled (this c))))) (this c) /\
  (Forall (fun eff => exists m, eff = PostMessage node m) (trace c) ->
   Forall (fun eff => exists m, eff = PostMessage node m) (trace (invokeAll calls c))).
Proof.
  revert c. induction calls as [| call calls IH]; intros c Hnode Hctl.
  - simpl. rewrite negb_involutive, set_bypassEnabled_same. auto.
  - simpl in Hctl. apply andb_prop in Hctl as [Hcall Hrest].
    destruct call as [ctx | ctx loaded | level | enabled |]; try discriminate Hcall.
    + pose proof (setSuppressionLevel_same_instance level (this c)) as Hsame.
      pose proof (setSuppressionLevel_effects level (this c)) as Heffs.
      simpl. destruct (setSuppressionLevel level (this c)) as [p' effs].
      simpl in Hsame, Heffs. subst p'.
      destruct (IH {| this := this c; suspended := suspended c;
                      trace := (trace c ++ effs)%list |} Hnode Hrest) as [Hthis Htrace].
      simpl in *. split; [exact Hthis |].
      intros Hall. apply Htrace. apply Forall_app. split; [assumption |].
      destruct Heffs as [-> | (node' & m & Hnode' & ->)]; [constructor |].
      constructor; [| constructor]. exists m. congruence.
    + simpl. unfold setNoiseSuppressionEnabled. rewrite Hnode.
      destruct (IH {| this := set_bypassEnabled (negb enabled) (this c);
                      suspended := suspended c;
                      trace := (trace c ++ [PostMessage node (SET_BYPASS (negb enabled))])%list |}
                   Hnode Hrest) as [Hthis Htrace].
      simpl in *. rewrite negb_involutive in Hthis. split; [exact Hthis |].
      intros Hall. apply Htrace. apply Forall_app. split; [assumption |].
      constructor; [eauto | constructor].
Qed.

(** X6: on an instance with a node, any sequence of calls to
    [setSuppressionLevel] and [setNoiseSuppressionEnabled] changes nothing
    but the bypass flag, [isNoiseSuppressionEnabled()] then answers with
    the argument of the last [setNoiseSuppressionEnabled] (or as before
    when there was none), and everything posted went to that one node. *)
Theorem control_calls_last_set_wins (p : Processor) (node : AudioWorkletNode)
    (calls : list Call) :
  workletNode p = Some node ->
  forallb isControl calls = true ->
  let c := invokeAll calls (clientOf p) in
  this c = set_bypassEnabled (bypassEnabled (this c)) p /\
  isNoiseSuppressionEnabled (this c) =
    lastEnabled calls (isNoiseSuppressionEnabled p) /\
  workletNode (this c) = Some node /\
  Forall (fun eff => exists m, eff = PostMessage node m) (trace c).
Proof.
  intros Hnode Hctl c.
  destruct (control_invokeAll node calls (clientOf p) Hnode Hctl) as [Hthis Htrace].
  fold c in Hthis, Htrace. simpl in Hthis.
  split; [| split; [| split]].
  - rewrite Hthis. reflexivity.
  - rewrite Hthis. unfold isNoiseSuppressionEnabled. simpl. apply negb_involutive.
  - rewrite Hthis. exact Hnode.
  - apply Htrace. constructor.
Qed.

Lemma control_calls_last_set_wins_witness :
  isNoiseSuppressionEnabled
    (this (invokeAll [SetNoiseSuppressionEnabled false;
                      SetSuppressionLevel (VNumber (of_Z 80));
                      SetNoiseSuppressionEnabled true;
                      SetNoiseSuppressionEnabled false]
             (clientOf exampleReady))) = false.
Proof.
  apply (control_calls_last_set_wins exampleReady exampleNode
           [SetNoiseSuppressionEnabled false;
            SetSuppressionLevel (VNumber (of_Z 80));
            SetNoiseSuppressionEnabled true;
            SetNoiseSuppressionEnabled false]); reflexivity.
Defined.

(** X7: [createAudioWorkletNode] may be called again on an initialized
    instance.  The second node takes the place of the first without the
    first being disconnected, the recorded bypass flag is carried over
    although the new node is sent nothing, and [destroy()] then
    disconnects the second node only. *)
Theorem second_node_replaces_first (p : Processor) (a : ProcessorAssets)
    (ctx1 ctx2 : AudioContext) :
  isInitialized p = true ->
  assets p = Some a ->
  let node (ctx : AudioContext) :=
    {| nodeContext := ctx;
       nodeName := "deepfilter-audio-processor";
       processorOptions :=
         {| optWasmModule := wasmModule a; optModelBytes := modelBytes a;
            suppressionLevel := noiseReductionLevel (config p) |} |} in
  let c := invokeAll [CreateAudioWorkletNode ctx1; ModuleLoaded ctx1 (Fulfilled tt);
                      CreateAudioWorkletNode ctx2; ModuleLoaded ctx2 (Fulfilled tt)]
             (clientOf p) in
  this c = set_workletNode (Some (node ctx2)) p /\
  trace c = [] /\
  bypassEnabled (this c) = bypassEnabled p /\
  trace (invoke Destroy c) = [Disconnect (node ctx2)] /\
  workletNode (this (invoke Destroy c)) = None.
Proof.
  intros Hinit Hassets node c. subst c node.
  destruct p as [loader assets0 node0 init bypass cfg]. simpl in Hinit, Hassets.
  subst init assets0. unfold invokeAll, clientOf. simpl.
  repeat (rewrite Nat.eqb_refl; simpl). repeat split.
Qed.

Lemma second_node_replaces_first_witness :
  trace (invokeAll [CreateAudioWorkletNode exampleContext;
                    ModuleLoaded exampleContext (Fulfilled tt);
                    CreateAudioWorkletNode exampleContext;
                    ModuleLoaded exampleContext (Fulfilled tt)]
           (clientOf exampleReady)) = [].
Proof.
  apply (second_node_replaces_first exampleReady exampleAssets
           exampleContext exampleContext); reflexivity.
Defined.

(** * Further properties of the asset cache *)

Section CacheAccounting.

Variable getAssetUrls : AssetLoader -> AssetUrls.

Lemma isRequest_preloadArg (ev : Event) : isRequest ev = not_null (preloadArg ev).
Proof. reflexivity. Qed.

(** What one event does to the cache. *)
Lemma step_effect (ev : Event) (w : World) :
  wf w ->
  (exists extra,
      fetchLog (snd (step getAssetUrls ev w)) = (fetchLog w ++ extra)%list /\
      length extra + 2 * nextPromise w = 2 * nextPromise (snd (step getAssetUrls ev w))) /\
  nextPromise w <= nextPromise (snd (step getAssetUrls ev w)) /\
  nextPromise (snd (step getAssetUrls ev w)) <=
    nextPromise w + (if isRequest ev then 1 else 0) /\
  (is_Some (preloadPromise w) -> is_Some (preloadPromise (snd (step getAssetUrls ev w)))) /\
  (if isRequest ev
   then exists q, fst (step getAssetUrls ev w) = Some q /\
          preloadPromise (snd (step getAssetUrls ev w)) = Some q /\
          q < nextPromise (snd (step getAssetUrls ev w))
   else fst (step getAssetUrls ev w) = None) /\
  (forall q, is_Some (promises w !! q) ->
             is_Some (promises (snd (step getAssetUrls ev w)) !! q)).
Proof.
  intros Hwf. pose proof Hwf as [Hdom Hslot].
  rewrite isRequest_preloadArg.
  destruct (preloadArg ev) as [cfg |] eqn:Harg.
  - rewrite (step_request _ ev cfg w Harg). cbn [fst snd not_null].
    destruct (cacheHolds_dec (effectiveLocation cfg) w) as [[[p Hp] Hloc] | Hmiss].
    + rewrite (preload_hit _ cfg w p) by auto. cbn [fst snd].
      split; [exists []; rewrite app_nil_r; split; [reflexivity | simpl; lia] |].
      split; [lia |]. split; [lia |]. split; [auto |].
      split; [exists p; auto | auto].
    + rewrite preload_miss by assumption. simpl.
      split; [eexists; split; [reflexivity | simpl; lia] |].
      split; [lia |]. split; [lia |]. split; [eauto |].
      split; [eexists; repeat split; lia |].
      intros q Hq. rewrite lookup_insert_is_Some.
      destruct (decide (nextPromise w = q)); [now left | right; split; assumption].
  - destruct (step_settle getAssetUrls ev w Harg) as (p & c & ->). cbn [fst snd not_null].
    destruct (settle_fields p c w) as (Hp' & _ & Hn' & Hl').
    rewrite Hp', Hn', Hl'.
    split; [exists []; rewrite app_nil_r; split; [reflexivity | simpl; lia] |].
    split; [lia |]. split; [lia |]. split; [auto |]. split; [reflexivity |].
    intros q Hq. destruct (wf_settle p c w Hwf) as [Hdom' _].
    apply Hdom'. rewrite Hn'. now apply Hdom.
Qed.

(** X8: the cache fetches only when asked and never retries.  After any
    sequence of requests and completions in a fresh module, the number of
    calls to [fetchAsset] is exactly twice the number of promises created,
    there are no more promises than requests, and every request was handed
    a promise that the cache tracks. *)
Theorem fetches_follow_requests (evs : list Event) :
  let w := snd (run getAssetUrls evs initialWorld) in
  let observed := fst (run getAssetUrls evs initialWorld) in
  wf w /\
  length (fetchLog w) = 2 * nextPromise w /\
  nextPromise w <= length (List.filter isRequest evs) /\
  length observed = length (List.filter isRequest evs) /\
  Forall (fun q => is_Some (promises w !! q)) observed.
Proof.
  intros w observed. subst w observed.
  assert (Hgen : forall evs w0, wf w0 ->
            let w := snd (run getAssetUrls evs w0) in
            let observed := fst (run getAssetUrls evs w0) in
            wf w /\
            length (fetchLog w) + 2 * nextPromise w0 =
              length (fetchLog w0) + 2 * nextPromise w /\
            nextPromise w0 <= nextPromise w /\
            nextPromise w <= nextPromise w0 + length (List.filter isRequest evs) /\
            length observed = length (List.filter isRequest evs) /\
            Forall (fun q => q < nextPromise w) observed).
  { clear evs. induction evs as [| ev evs IH]; intros w0 Hwf0.
    - simpl. split; [assumption |]. split; [lia |]. split; [lia |].
      split; [lia |]. split; [reflexivity | constructor].
    - rewrite run_cons. cbn [fst snd List.filter].
      destruct (step_effect ev w0 Hwf0)
        as ((extra & Hlog & Hlen) & Hmono & Hone & _ & Hobs & _).
      pose proof (wf_step getAssetUrls ev w0 Hwf0) as Hwf1.
      destruct (IH _ Hwf1) as (Hwf & Hcount & Hmono' & Hbound & Hlen' & Hall).
      split; [exact Hwf |].
      rewrite Hlog, length_app in Hcount.
      split; [lia |]. split; [lia |].
      destruct (isRequest ev).
      + destruct Hobs as (q & -> & _ & Hq). cbn [length].
        split; [lia |]. split; [lia |].
        constructor; [lia | exact Hall].
      + rewrite Hobs. split; [lia |]. split; [exact Hlen' | exact Hall]. }
  destruct (Hgen evs initialWorld wf_initialWorld)
    as (Hwf & Hcount & _ & Hbound & Hlen & Hall).
  simpl in Hcount, Hbound.
  split; [exact Hwf |]. split; [lia |]. split; [lia |]. split; [exact Hlen |].
  destruct Hwf as [Hdom _].
  eapply List.Forall_impl; [| exact Hall]. intros q Hq. now apply Hdom.
Qed.

(** X9: the cache has no reset.  Whatever happens, the fetch log only
    grows, no promise is dropped, and once a request has been made the
    slot is never empty again. *)
Theorem cache_never_forgets (evs : list Event) (w : World) :
  wf w ->
  let w' := snd (run getAssetUrls evs w) in
  (exists extra, fetchLog w' = (fetchLog w ++ extra)%list) /\
  nextPromise w <= nextPromise w' /\
  (forall q, is_Some (promises w !! q) -> is_Some (promises w' !! q)) /\
  (is_Some (preloadPromise w) \/ List.filter isRequest evs <> [] ->
   is_Some (preloadPromise w')).
Proof.
  revert w. induction evs as [| ev evs IH]; intros w Hwf.
  - simpl. split; [exists []; now rewrite app_nil_r |].
    split; [lia |]. split; [auto |]. intros [Hslot | Hreq]; [exact Hslot | congruence].
  - cbn zeta. rewrite run_cons. cbn [fst snd List.filter].
    destruct (step_effect ev w Hwf)
      as ((extra & Hlog & _) & Hmono & _ & Hkeep & Hobs & Hproms).
    pose proof (wf_step getAssetUrls ev w Hwf) as Hwf1.
    destruct (IH _ Hwf1) as ((extra' & Hlog') & Hmono' & Hproms' & Hslot').
    split; [exists (extra ++ extra')%list; rewrite Hlog', Hlog; now rewrite app_assoc |].
    split; [lia |]. split; [auto |].
    intros Hcase. apply Hslot'.
    destruct Hcase as [Hslot | Hreq]; [left; now apply Hkeep |].
    destruct (isRequest ev).
    + left. destruct Hobs as (q & _ & -> & _). eauto.
    + right. exact Hreq.
Qed.

End CacheAccounting.

Section CreateEndToEnd.

Variable getAssetUrls : AssetLoader -> AssetUrls.

(** Whether it hits or misses, [preload] leaves its result in the slot. *)
Lemma preload_slot (cfg : option DeepFilterNet3ProcessorConfig) (w : World) :
  preloadPromise (snd (preload getAssetUrls cfg w)) =
    Some (fst (preload getAssetUrls cfg w)).
Proof.
  destruct (cacheHolds_dec (effectiveLocation cfg) w) as [[[p Hp] Hloc] | Hmiss].
  - now rewrite (preload_hit _ cfg w p).
  - now rewrite preload_miss.
Qed.

(** A pending promise stays pending until its own acquisition completes. *)
Lemma step_pending_stable (ev : Event) (w : World) (p : PromiseId) :
  wf w ->
  promises w !! p = Some Pending ->
  settles p ev = false ->
  promises (snd (step getAssetUrls ev w)) !! p = Some Pending.
Proof.
  intros [Hdom Hslot] Hp Hev.
  destruct (preloadArg ev) as [cfg |] eqn:Harg.
  - rewrite (step_request _ ev cfg w Harg). simpl.
    destruct (cacheHolds_dec (effectiveLocation cfg) w) as [[[q Hq] Hloc] | Hmiss].
    + now rewrite (preload_hit _ cfg w q).
    + rewrite preload_miss by assumption. simpl.
      rewrite lookup_insert_ne; [assumption |].
      assert (p < nextPromise w) by (apply Hdom; rewrite Hp; eauto). lia.
  - destruct ev as [cfg | cfg | q c]; try discriminate Harg. simpl in *.
    rewrite settle_other; [assumption |].
    now apply Nat.eqb_neq.
Qed.

Lemma run_pending_stable (evs : list Event) (w : World) (p : PromiseId) :
  wf w ->
  promises w !! p = Some Pending ->
  forallb (fun ev => negb (settles p ev)) evs = true ->
  promises (snd (run getAssetUrls evs w)) !! p = Some Pending.
Proof.
  revert w. induction evs as [| ev evs IH]; intros w Hwf Hp Hevs; [assumption |].
  simpl in Hevs. apply andb_prop in Hevs as [Hev Hevs].
  apply negb_true_iff in Hev.
  rewrite run_cons. simpl. apply IH; [now apply wf_step | | assumption].
  now apply step_pending_stable.
Qed.

Lemma acquisition_succeeds (id : PromiseId) (c : Completion) :
  (exists a, acquisition id c = Fulfilled a) <->
  (exists wasmBytes modelBytes module,
      wasmFetch c = Fulfilled wasmBytes /\
      modelFetch c = Fulfilled modelBytes /\
      compile c wasmBytes = Fulfilled module).
Proof.
  unfold acquisition, Promise_all. split.
  - intros [a Ha].
    destruct (wasmFetch c) as [wb |]; destruct (modelFetch c) as [mb |];
      try discriminate.
    destruct (compile c wb) as [m |] eqn:Hc; [eauto 6 | discriminate].
  - intros (wb & mb & m & -> & -> & Hc). rewrite Hc. eauto.
Qed.

(** X10: [create] from start to end.  While the promise it waits for is
    pending, nothing but the end of that acquisition settles it, not even
    requests for other locations that take over the slot; once the
    acquisition has ended, the promise keeps its outcome whatever follows.
    [create] then resolves to an initialized instance holding the assets
    exactly when both fetches and the compilation succeeded, and rejects
    with the acquisition's error otherwise. *)
Theorem create_delivers (cfg : option DeepFilterNet3ProcessorConfig) (w : World)
    (c : Completion) (between later : list Event) :
  let processor := constructor (cfg ?? emptyConfig) in
  let p := fst (preload getAssetUrls (Some (config processor)) w) in
  let w1 := snd (preload getAssetUrls (Some (config processor)) w) in
  wf w ->
  await p w1 = None ->
  forallb (fun ev => negb (settles p ev)) between = true ->
  create_start getAssetUrls cfg w = (processor, Some p, w1) /\
  await p (snd (run getAssetUrls between w1)) = None /\
  await p (snd (run getAssetUrls later
                  (settle p c (snd (run getAssetUrls between w1))))) =
    Some (acquisition p c) /\
  create_resume (acquisition p c) processor =
    match acquisition p c with
    | Fulfilled a => Fulfilled (set_isInitialized true (set_assets (Some a) processor))
    | Rejected e => Rejected e
    end /\
  ((exists r, create_resume (acquisition p c) processor = Fulfilled r) <->
   (exists wasmBytes modelBytes module,
       wasmFetch c = Fulfilled wasmBytes /\
       modelFetch c = Fulfilled modelBytes /\
       compile c wasmBytes = Fulfilled module)).
Proof.
  intros processor p w1 Hwf Hnone Hbetween.
  assert (Hwf1 : wf w1) by now apply wf_preload.
  assert (Hpending : promises w1 !! p = Some Pending).
  { pose proof (preload_slot (Some (config processor)) w) as Hslot.
    fold p w1 in Hslot. destruct Hwf1 as [Hdom Hs].
    apply Hs in Hslot. apply Hdom in Hslot as [st Hst].
    unfold await in Hnone. rewrite Hst in *. now destruct st. }
  pose proof (run_pending_stable between w1 p Hwf1 Hpending Hbetween) as Hstill.
  set (w2 := snd (run getAssetUrls between w1)) in *.
  assert (Hwf2 : wf w2) by now apply wf_run.
  split; [| split; [| split; [| split]]].
  - unfold create_start, initialize_start. fold processor. simpl.
    fold p w1. now destruct (preload getAssetUrls _ w).
  - unfold await. now rewrite Hstill.
  - apply run_settled_stable; [now apply wf_settle |].
    unfold await, settle. rewrite Hstill. simpl. now rewrite lookup_insert_eq.
  - unfold create_resume, initialize_resume. now destruct (acquisition p c).
  - rewrite <- (acquisition_succeeds p c). unfold create_resume, initialize_resume.
    destruct (acquisition p c) as [a | e]; simpl; split; intros [x Hx];
      try discriminate Hx; eauto.
Qed.

(** X11: the key of the cache is the base location alone.  When a request
    that starts an acquisition is followed by a request for the same base
    location, the second one joins it whatever else its configuration
    says: the fetches were made through the first requester's loader, and
    the stored configuration stays the first requester's. *)
Theorem first_requester_decides_loader (cfg1 : option DeepFilterNet3ProcessorConfig)
    (ev2 : Event) (w : World) :
  ~ cacheHolds (effectiveLocation cfg1) w ->
  requestLocation ev2 = Some (effectiveLocation cfg1) ->
  let w' := snd (run getAssetUrls [EvPreload cfg1; ev2] w) in
  fst (run getAssetUrls [EvPreload cfg1; ev2] w) = [nextPromise w; nextPromise w] /\
  fetchLog w' = (fetchLog w ++ fetchesOf getAssetUrls (targetAssetConfigOf cfg1))%list /\
  preloadConfig w' = targetAssetConfigOf cfg1 /\
  Forall (fun f => via f = getAssetLoader (targetAssetConfigOf cfg1))
    (fetchesOf getAssetUrls (targetAssetConfigOf cfg1)).
Proof.
  intros Hmiss Hloc w'. subst w'.
  unfold requestLocation in Hloc.
  destruct (preloadArg ev2) as [cfg2 |] eqn:Harg; [| discriminate].
  injection Hloc as Hloc.
  rewrite !run_cons. cbn [run fst snd].
  rewrite (step_request _ (EvPreload cfg1) cfg1 w eq_refl).
  rewrite preload_miss by assumption. cbn [fst snd].
  rewrite (step_request _ ev2 cfg2 _ Harg).
  rewrite (preload_hit _ cfg2 _ (nextPromise w)) by (simpl; auto).
  simpl. repeat split. repeat constructor.
Qed.

End CreateEndToEnd.

Lemma cache_never_forgets_witness :
  is_Some (preloadPromise
             (snd (run exampleAssetUrls
                     [EvPreload configB; EvSettle 0 completionOk; EvCreate configA]
                     worldAfterFailure))).
Proof.
  assert (Hwf : wf worldAfterFailure) by apply wf_run, wf_initialWorld.
  apply (cache_never_forgets exampleAssetUrls
           [EvPreload configB; EvSettle 0 completionOk; EvCreate configA]
           worldAfterFailure Hwf).
  left. vm_compute. eauto.
Defined.

Lemma create_delivers_witness :
  await 0 (snd (run exampleAssetUrls [EvPreload configA]
                  (settle 0 completionOk
                     (snd (run exampleAssetUrls [EvPreload configB]
                             (snd (preload exampleAssetUrls
                                     (Some (config (constructor emptyConfig)))
                                     initialWorld))))))) =
    Some (acquisition 0 completionOk).
Proof.
  apply (create_delivers exampleAssetUrls None initialWorld completionOk
           [EvPreload configB] [EvPreload configA] wf_initialWorld);
    reflexivity.
Defined.

Lemma first_requester_decides_loader_witness :
  fst (run exampleAssetUrls [EvPreload None; EvCreate configDefaultExplicit] initialWorld) =
    [0; 0] /\
  preloadConfig
    (snd (run exampleAssetUrls [EvPreload None; EvCreate configDefaultExplicit]
            initialWorld)) = None.
Proof.
  assert (Hmiss : ~ cacheHolds (effectiveLocation None) initialWorld).
  { intros [[p Hp] _]. discriminate Hp. }
  destruct (first_requester_decides_loader exampleAssetUrls None
              (EvCreate configDefaultExplicit) initialWorld Hmiss eq_refl)
    as (Hps & _ & Hcfg & _).
  split; [exact Hps | exact Hcfg].
Defined.
